(** * StoreIt file actions: a shallow embedding of [lib/actions/file.actions.ts]

    The module sequences calls to two external services (object storage and
    a document database).  The embedding keeps the source's shape:

    - JavaScript values the code inspects ([if (x)], [===], [split]) are
      modelled with their truthiness and string operations written out;
    - the external collaborators (the Appwrite clients, [getCurrentUser],
      [revalidatePath], [ID.unique]) are an oracle over an abstract world
      state, every call is appended to a log together with its outcome;
    - [async]/[await] with [try]/[catch] is a state-and-exception monad in
      which the world and the log survive a [throw];
    - the dynamic index [totalSpace[fileType]] is a property lookup on the
      object literal, including what it inherits from [Object.prototype];
    - sizes are integer-valued JavaScript numbers: their sum is the exact
      sum rounded to a double, exact up to 2^53. *)

From Stdlib Require Import String Ascii ZArith List Bool Lia Permutation.
Import ListNotations.
Local Open Scope string_scope.
Local Open Scope Z_scope.
Local Open Scope list_scope.

(** ** JavaScript basics used by the module *)

Module Js.

(** [ToBoolean] on a string: only the empty string is falsy. *)
Definition truthy_string (s : string) : bool :=
  match s with
  | EmptyString => false
  | String _ _ => true
  end.

(** A JavaScript number as far as an argument of the module is inspected:
    an integer or [NaN].  (Fractions and infinities, which are truthy like
    every non-zero integer, are left out.) *)
Inductive number :=
| Int (z : Z)
| NaN.

(** [ToBoolean] on a number: [0] and [NaN] are falsy. *)
Definition truthy_number (n : number) : bool :=
  match n with
  | Int z => negb (z =? 0)
  | NaN => false
  end.

(** The double nearest to the integer [x]: round to nearest, ties to even,
    on a significand of 53 bits (magnitudes within the range of finite
    doubles).  Every integer up to 2^53 in magnitude is a double. *)
Definition round (x : Z) : Z :=
  let m := Z.abs x in
  if m <? 2 ^ 53 then x
  else
    let unit := 2 ^ (Z.log2 m - 52) in
    let q := m / unit in
    let r := m mod unit in
    let half := unit / 2 in
    let q' := if (half <? r) || ((r =? half) && Z.odd q) then q + 1 else q in
    Z.sgn x * (q' * unit).

(** [a + b] on integer-valued doubles: the exact sum, rounded. *)
Definition add (a b : Z) : Z := round (a + b).

(** The values a backend reply can take where the code only tests its
    truthiness ([Promise<{}>] admits every non-nullish value). *)
Inductive value :=
| Undefined
| Null
| Boolean (b : bool)
| Number (n : number)
| Str (s : string)
| Object (fields : list (string * string)).

Definition truthy (v : value) : bool :=
  match v with
  | Undefined | Null => false
  | Boolean b => b
  | Number n => truthy_number n
  | Str s => truthy_string s
  | Object _ => true
  end.

(** [s.split(sep)] for a one-character separator.  The result always has
    a first segment, so it is returned as that segment and the rest. *)
Fixpoint split (sep : ascii) (s : string) : string * list string :=
  match s with
  | EmptyString => (EmptyString, [])
  | String c rest =>
      let (seg, segs) := split sep rest in
      if Ascii.eqb c sep then (EmptyString, seg :: segs)
      else (String c seg, segs)
  end.

(** [x === s] for a string [s] and an [x] that is a string or
    [undefined]. *)
Definition strict_equal (x : option string) (s : string) : bool :=
  match x with
  | Some a => String.eqb a s
  | None => false
  end.

(** [s.includes(sub)]. *)
Definition includes (sub s : string) : bool :=
  match String.index 0 sub s with
  | Some _ => true
  | None => false
  end.

End Js.

(** ** Query predicates ([Query] of node-appwrite, as an abstract syntax) *)

Inductive QueryValue :=
| QV_string (s : string)
| QV_array (l : list string).

#[warnings="-register-all"]
Inductive Query :=
| Query_equal (attribute : string) (value : QueryValue)
| Query_contains (attribute : string) (value : QueryValue)
| Query_or (queries : list Query)
| Query_limit (limit : Js.number)
| Query_orderAsc (attribute : string)
| Query_orderDesc (attribute : string).

(** The fields of the current user's document that the module reads. *)
Record User := { user_id : string; user_email : string }.

(** [queries.push(q)] *)
Definition push {A} (queries : list A) (q : A) : list A := queries ++ [q].

Definition hyphen : ascii := "-"%char.

(** [createQueries], lines 73-93. *)
Definition createQueries (currentUser : User) (types : list string)
    (searchText : string) (sort : string) (limit : option Js.number) : list Query :=
  let queries :=
    [ Query_or
        [ Query_equal "owner" (QV_array [user_id currentUser]);
          Query_contains "users" (QV_array [user_email currentUser]) ] ] in
  let queries :=
    if (0 <? length types)%nat then push queries (Query_equal "type" (QV_array types))
    else queries in
  let queries :=
    if Js.truthy_string searchText
    then push queries (Query_contains "name" (QV_string searchText))
    else queries in
  let queries :=
    match limit with
    | Some n => if Js.truthy_number n then push queries (Query_limit n) else queries
    | None => queries
    end in
  let queries :=
    if Js.truthy_string sort then
      let (sortBy, rest) := Js.split hyphen sort in
      let orderBy := hd_error rest in
      push queries
        (if Js.strict_equal orderBy "asc" then Query_orderAsc sortBy
         else Query_orderDesc sortBy)
    else queries in
  queries.

(** The visibility scope: owner equals the user's id, or the [users] array
    contains the user's email. *)
Definition visibility (currentUser : User) : Query :=
  Query_or
    [ Query_equal "owner" (QV_array [user_id currentUser]);
      Query_contains "users" (QV_array [user_email currentUser]) ].

Definition is_order (q : Query) : bool :=
  match q with
  | Query_orderAsc _ | Query_orderDesc _ => true
  | _ => false
  end.

Fixpoint no_hyphen (s : string) : bool :=
  match s with
  | EmptyString => true
  | String c rest => negb (Ascii.eqb c hyphen) && no_hyphen rest
  end.

(** ** Completions, exceptions and the data exchanged with the backends *)

Inductive TypeErrorReason :=
| ReadPropertyOfUndefined     (* Cannot read properties of undefined *)
| CreatePropertyOnPrimitive.  (* Cannot create property on number (strict code) *)

Inductive Exn :=
| BackendFailure (message : string)  (* whatever a collaborator threw *)
| Error (message : string)           (* new Error(message) *)
| TypeError (reason : TypeErrorReason).

Definition exn_message (e : Exn) : string :=
  match e with
  | BackendFailure m => m
  | Error m => m
  | TypeError ReadPropertyOfUndefined => "Cannot read properties of undefined"
  | TypeError CreatePropertyOnPrimitive => "Cannot create property on number"
  end.

Inductive Completion (A : Type) :=
| Normal (a : A)
| Throw (e : Exn).
Arguments Normal {A} a.
Arguments Throw {A} e.

Record AppwriteConfig := {
  bucketId : string;
  databaseId : string;
  filesCollectionId : string
}.

(** The browser [File] handed to Upload. *)
Record File := { file_name : string; file_bytes : list Byte.byte }.

(** [InputFile.fromBuffer(buffer, filename)] *)
Record InputFile := { input_buffer : File; input_filename : string }.

Definition InputFile_fromBuffer (buffer : File) (filename : string) : InputFile :=
  {| input_buffer := buffer; input_filename := filename |}.

(** The fields of [Models.File] that the module reads. *)
Record BucketFile := {
  bf_id : string;          (* $id *)
  bf_name : string;
  bf_sizeOriginal : Z
}.

(** What [getFileType(name)] returns. *)
Record FileTypeInfo := { fti_type : string; fti_extension : string }.

(** The fields of the object literal [fileDocument], lines 38-48. *)
Record FileDocument := {
  fd_type : string;
  fd_name : string;
  fd_url : string;
  fd_extension : string;
  fd_size : Z;
  fd_owner : string;
  fd_accountId : string;
  fd_users : list string;
  fd_bucketFileId : string
}.

(** The fields of a stored [Models.Document] that the module reads, and a
    few more for identification. *)
Record Document := {
  doc_id : string;          (* $id *)
  doc_updatedAt : string;   (* $updatedAt *)
  doc_type : string;
  doc_name : string;
  doc_size : Z;             (* an integer-valued number *)
  doc_owner : string
}.

Record DocumentList := { total : Z; documents : list Document }.

(** The object literal given to [updateDocument]: its keys and values. *)
Inductive PatchValue :=
| PV_string (s : string)
| PV_strings (l : list string).

Definition Patch := list (string * PatchValue).

(** ** The collaborators: events and the oracle that answers them *)

Inductive Event :=
| E_createAdminClient
| E_createSessionClient
| E_getCurrentUser
| E_storage_createFile (bucket fileId : string) (file : InputFile)
| E_storage_deleteFile (bucket fileId : string)
| E_databases_createDocument (database collection documentId : string) (data : FileDocument)
| E_databases_updateDocument (database collection documentId : string) (data : Patch)
| E_databases_deleteDocument (database collection documentId : string)
| E_databases_listDocuments (database collection : string) (queries : list Query)
| E_revalidatePath (path : string).

(** One log entry: the call and the error it threw, if any. *)
Definition Entry := (Event * option Exn)%type.
Definition Log := list Entry.

Record Backend (W : Type) := {
  be_createAdminClient : W -> W * Completion unit;
  be_createSessionClient : W -> W * Completion unit;
  be_getCurrentUser : W -> W * Completion (option User);
  be_ID_unique : W -> W * string;
  be_storage_createFile : W -> string -> string -> InputFile -> W * Completion BucketFile;
  be_storage_deleteFile : W -> string -> string -> W * Completion unit;
  be_databases_createDocument :
    W -> string -> string -> string -> FileDocument -> W * Completion Document;
  be_databases_updateDocument :
    W -> string -> string -> string -> Patch -> W * Completion Document;
  be_databases_deleteDocument : W -> string -> string -> string -> W * Completion Js.value;
  be_databases_listDocuments :
    W -> string -> string -> list Query -> W * Completion DocumentList;
  be_revalidatePath : W -> string -> W * Completion unit
}.
Arguments be_createAdminClient {W} _ _.
Arguments be_createSessionClient {W} _ _.
Arguments be_getCurrentUser {W} _ _.
Arguments be_ID_unique {W} _ _.
Arguments be_storage_createFile {W} _ _ _ _ _.
Arguments be_storage_deleteFile {W} _ _ _ _.
Arguments be_databases_createDocument {W} _ _ _ _ _ _.
Arguments be_databases_updateDocument {W} _ _ _ _ _ _.
Arguments be_databases_deleteDocument {W} _ _ _ _ _.
Arguments be_databases_listDocuments {W} _ _ _ _ _.
Arguments be_revalidatePath {W} _ _ _.

Definition outcome {A} (c : Completion A) : option Exn :=
  match c with
  | Normal _ => None
  | Throw e => Some e
  end.

Definition is_listDocuments (ev : Event) : bool :=
  match ev with
  | E_databases_listDocuments _ _ _ => true
  | _ => false
  end.

Definition is_storage_deleteFile (ev : Event) : bool :=
  match ev with
  | E_storage_deleteFile _ _ => true
  | _ => false
  end.

Definition is_updateDocument (ev : Event) : bool :=
  match ev with
  | E_databases_updateDocument _ _ _ _ => true
  | _ => false
  end.

(** The error of the last call in the log that failed. *)
Definition last_failure (log : Log) : option Exn :=
  fold_left (fun acc (entry : Entry) =>
               match snd entry with
               | Some e => Some e
               | None => acc
               end) log None.

(** The entries that follow the first failed call. *)
Fixpoint after_first_failure (log : Log) : Log :=
  match log with
  | [] => []
  | (_, Some _) :: rest => rest
  | (_, None) :: rest => after_first_failure rest
  end.

(** The event of the first failed call. *)
Fixpoint first_failed_event (log : Log) : option Event :=
  match log with
  | [] => None
  | (ev, Some _) :: _ => Some ev
  | (_, None) :: rest => first_failed_event rest
  end.

(** The spec's words for the failure policy: the surfaced error is the
    cause "wrapped with a human-readable message". *)
Definition wrapped (message : string) (cause surfaced : Exn) : Prop :=
  surfaced <> cause /\ Js.includes message (exn_message surfaced) = true.

(** ** The totals structure of [getTotalSpaceUsed] *)

Record Bucket := { size : Z; latestDate : string }.

(** The object literal [totalSpace], lines 249-257. *)
Record TotalSpace := {
  image : Bucket;
  document : Bucket;
  video : Bucket;
  audio : Bucket;
  other : Bucket;
  used : Z;
  all : Z
}.

Definition totalSpace_literal : TotalSpace :=
  {| image := {| size := 0; latestDate := "" |};
     document := {| size := 0; latestDate := "" |};
     video := {| size := 0; latestDate := "" |};
     audio := {| size := 0; latestDate := "" |};
     other := {| size := 0; latestDate := "" |};
     used := 0;
     all := 2 * 1024 * 1024 * 1024 |}.

(** The own keys of the literal whose value is a [{size, latestDate}] object. *)
Inductive BucketKey := K_image | K_document | K_video | K_audio | K_other.

Definition bucket (k : BucketKey) (t : TotalSpace) : Bucket :=
  match k with
  | K_image => image t
  | K_document => document t
  | K_video => video t
  | K_audio => audio t
  | K_other => other t
  end.

Definition set_bucket (k : BucketKey) (b : Bucket) (t : TotalSpace) : TotalSpace :=
  match k with
  | K_image =>
      {| image := b; document := document t; video := video t; audio := audio t;
         other := other t; used := used t; all := all t |}
  | K_document =>
      {| image := image t; document := b; video := video t; audio := audio t;
         other := other t; used := used t; all := all t |}
  | K_video =>
      {| image := image t; document := document t; video := b; audio := audio t;
         other := other t; used := used t; all := all t |}
  | K_audio =>
      {| image := image t; document := document t; video := video t; audio := b;
         other := other t; used := used t; all := all t |}
  | K_other =>
      {| image := image t; document := document t; video := video t; audio := audio t;
         other := b; used := used t; all := all t |}
  end.

(** [totalSpace[k].size = n] *)
Definition set_size (k : BucketKey) (n : Z) (t : TotalSpace) : TotalSpace :=
  set_bucket k {| size := n; latestDate := latestDate (bucket k t) |} t.

(** [totalSpace[k].latestDate = s] *)
Definition set_latestDate (k : BucketKey) (s : string) (t : TotalSpace) : TotalSpace :=
  set_bucket k {| size := size (bucket k t); latestDate := s |} t.

(** [totalSpace.used = n] *)
Definition set_used (n : Z) (t : TotalSpace) : TotalSpace :=
  {| image := image t; document := document t; video := video t; audio := audio t;
     other := other t; used := n; all := all t |}.

(** The properties every object literal inherits from [Object.prototype]:
    looking one of them up yields a function (or, for [__proto__], the
    prototype object itself), never [undefined]. *)
Definition Object_prototype_properties : list string :=
  [ "constructor"; "hasOwnProperty"; "isPrototypeOf"; "propertyIsEnumerable";
    "toLocaleString"; "toString"; "valueOf"; "__proto__";
    "__defineGetter__"; "__defineSetter__"; "__lookupGetter__"; "__lookupSetter__" ].

(** What [totalSpace[key]] evaluates to. *)
Inductive Property :=
| OwnBucket (k : BucketKey)   (* one of the five [{size, latestDate}] objects *)
| OwnNumber (n : Z)           (* [used] or [all]: a primitive number *)
| Inherited                   (* an object outside the literal, via the prototype *)
| Missing.                    (* undefined *)

Definition get_property (totalSpace : TotalSpace) (key : string) : Property :=
  if (key =? "image")%string then OwnBucket K_image
  else if (key =? "document")%string then OwnBucket K_document
  else if (key =? "video")%string then OwnBucket K_video
  else if (key =? "audio")%string then OwnBucket K_audio
  else if (key =? "other")%string then OwnBucket K_other
  else if (key =? "used")%string then OwnNumber (used totalSpace)
  else if (key =? "all")%string then OwnNumber (all totalSpace)
  else if existsb (String.eqb key) Object_prototype_properties then Inherited
  else Missing.

Definition known_type (key : string) : bool :=
  existsb (String.eqb key) ["document"; "image"; "video"; "audio"; "other"].

(** ** A date parser for the ECMAScript date-time string format

    [new Date(s)] is a builtin; the aggregator takes its time value as a
    parameter.  The parser below is the instance used to run the aggregator
    on concrete timestamps.  It reads the full form
    [YYYY-MM-DDTHH:mm:ss.sssZ] with [Z] or a [+HH:mm] / [-HH:mm] offset and
    yields milliseconds since the epoch.  It takes every other string for
    an invalid date, although [new Date] reads shorter forms too (a date
    alone, a time without milliseconds); it is run on full-form timestamps
    and on text that is no date at all. *)

Module IsoDate.

Definition digit (c : ascii) : option Z :=
  let n := Z.of_nat (nat_of_ascii c) in
  if (48 <=? n) && (n <=? 57) then Some (n - 48) else None.

(** Reads exactly [k] decimal digits. *)
Fixpoint number (k : nat) (acc : Z) (s : string) : option (Z * string) :=
  match k with
  | O => Some (acc, s)
  | S k' =>
      match s with
      | EmptyString => None
      | String c rest =>
          match digit c with
          | Some d => number k' (10 * acc + d) rest
          | None => None
          end
      end
  end.

Definition expect (c : ascii) (s : string) : option string :=
  match s with
  | String c' rest => if Ascii.eqb c c' then Some rest else None
  | EmptyString => None
  end.

Definition leap (y : Z) : bool :=
  ((y mod 4 =? 0) && negb (y mod 100 =? 0)) || (y mod 400 =? 0).

Definition days_in_month (y m : Z) : Z :=
  if m =? 2 then (if leap y then 29 else 28)
  else if (m =? 4) || (m =? 6) || (m =? 9) || (m =? 11) then 30
  else 31.

(** Days between 1970-01-01 and the given civil date. *)
Definition days_from_civil (y m d : Z) : Z :=
  let y' := if m <=? 2 then y - 1 else y in
  let era := y' / 400 in
  let yoe := y' - era * 400 in
  let mp := if 2 <? m then m - 3 else m + 9 in
  let doy := (153 * mp + 2) / 5 + d - 1 in
  let doe := yoe * 365 + yoe / 4 - yoe / 100 + doy in
  era * 146097 + doe - 719468.

(** The offset in minutes east of UTC: [Z], [+HH:mm] or [-HH:mm]. *)
Definition offset (s : string) : option Z :=
  match s with
  | String c rest =>
      if Ascii.eqb c "Z"%char then
        match rest with EmptyString => Some 0 | _ => None end
      else
        let sign :=
          if Ascii.eqb c "+"%char then Some 1
          else if Ascii.eqb c "-"%char then Some (-1)
          else None in
        match sign with
        | None => None
        | Some sg =>
            match number 2 0 rest with
            | None => None
            | Some (hh, rest) =>
                match expect ":"%char rest with
                | None => None
                | Some rest =>
                    match number 2 0 rest with
                    | Some (mm, EmptyString) =>
                        if (hh <=? 23) && (mm <=? 59) then Some (sg * (60 * hh + mm))
                        else None
                    | _ => None
                    end
                end
            end
        end
  | EmptyString => None
  end.

Definition bind {A B} (x : option A) (f : A -> option B) : option B :=
  match x with
  | Some a => f a
  | None => None
  end.

(** The time value of [new Date(s)]; [None] stands for [NaN]. *)
Definition valueOf (s : string) : option Z :=
  bind (number 4 0 s) (fun '(y, s) =>
  bind (expect "-"%char s) (fun s =>
  bind (number 2 0 s) (fun '(mo, s) =>
  bind (expect "-"%char s) (fun s =>
  bind (number 2 0 s) (fun '(d, s) =>
  bind (expect "T"%char s) (fun s =>
  bind (number 2 0 s) (fun '(h, s) =>
  bind (expect ":"%char s) (fun s =>
  bind (number 2 0 s) (fun '(mi, s) =>
  bind (expect ":"%char s) (fun s =>
  bind (number 2 0 s) (fun '(sec, s) =>
  bind (expect "."%char s) (fun s =>
  bind (number 3 0 s) (fun '(ms, s) =>
  bind (offset s) (fun off =>
    if (1 <=? mo) && (mo <=? 12) && (1 <=? d) && (d <=? days_in_month y mo)
       && (h <=? 23) && (mi <=? 59) && (sec <=? 59)
    then Some (days_from_civil y mo d * 86400000
               + h * 3600000 + (mi - off) * 60000 + sec * 1000 + ms)
    else None)))))))))))))).

End IsoDate.

(** ** A scripted backend: every collaborator answers with a fixed reply

    The world is a counter of the calls answered so far. *)

Record Script := {
  s_createAdminClient : Completion unit;
  s_createSessionClient : Completion unit;
  s_getCurrentUser : Completion (option User);
  s_createFile : Completion BucketFile;
  s_deleteFile : Completion unit;
  s_createDocument : Completion Document;
  s_updateDocument : Completion Document;
  s_deleteDocument : Completion Js.value;
  s_listDocuments : Completion DocumentList;
  s_revalidatePath : Completion unit
}.

Definition scripted (s : Script) : Backend nat :=
  {| be_createAdminClient := fun w => (S w, s_createAdminClient s);
     be_createSessionClient := fun w => (S w, s_createSessionClient s);
     be_getCurrentUser := fun w => (S w, s_getCurrentUser s);
     be_ID_unique := fun w => (S w, "unique()");
     be_storage_createFile := fun w _ _ _ => (S w, s_createFile s);
     be_storage_deleteFile := fun w _ _ => (S w, s_deleteFile s);
     be_databases_createDocument := fun w _ _ _ _ => (S w, s_createDocument s);
     be_databases_updateDocument := fun w _ _ _ _ => (S w, s_updateDocument s);
     be_databases_deleteDocument := fun w _ _ _ => (S w, s_deleteDocument s);
     be_databases_listDocuments := fun w _ _ _ => (S w, s_listDocuments s);
     be_revalidatePath := fun w _ => (S w, s_revalidatePath s) |}.

(** ** The actions *)

(** Modelled from the spec: [parseStringify] of [lib/utils] is not among the
    sources; the spec has every action return its value verbatim ("return
    results verbatim", "return the created record", "returns the result"). *)
Definition parseStringify {A : Type} (value : A) : A := value.

Record UploadFileProps := {
  up_file : File;
  up_ownerId : string;
  up_accountId : string;
  up_path : string
}.

Record GetFilesProps := {
  gf_types : option (list string);
  gf_searchText : option string;
  gf_sort : option string;
  gf_limit : option Js.number
}.

Record RenameFileProps := {
  rn_fileId : string;
  rn_name : string;
  rn_extension : string;
  rn_path : string
}.

Record UpdateFileUsersProps := {
  uu_fileId : string;
  uu_emails : list string;
  uu_path : string
}.

Record DeleteFileProps := {
  df_fileId : string;
  df_bucketFileId : string;
  df_path : string
}.

(** [parseStringify({ status: "success" })] *)
Record Status := { status : string }.

(** A destructuring default: [x = d] takes [d] when the caller left [x] out. *)
Definition default {A} (d : A) (x : option A) : A :=
  match x with
  | Some a => a
  | None => d
  end.

Inductive Action :=
| A_uploadFile (props : UploadFileProps)
| A_getFiles (props : GetFilesProps)
| A_renameFile (props : RenameFileProps)
| A_updateFileUsers (props : UpdateFileUsersProps)
| A_deleteFile (props : DeleteFileProps)
| A_getTotalSpaceUsed.

Inductive Reply :=
| R_document (d : Document)
| R_documents (l : DocumentList)
| R_status (s : Status)
| R_totalSpace (t : TotalSpace).

Section Model.

(** The outside world and the collaborators that answer from it. *)
Variable W : Type.
Variable backend : Backend W.
Variable appwriteConfig : AppwriteConfig.

(** Helpers of [lib/utils] that are not among the sources. *)
Variable getFileType : string -> FileTypeInfo.
Variable constructFileUrl : string -> string.

(** The time value of [new Date(s)]; [None] stands for [NaN]. *)
Variable Date_valueOf : string -> option Z.

(** *** The monad: world and log survive a throw *)

Definition M (A : Type) : Type := W * Log -> (W * Log) * Completion A.

Definition ret {A} (a : A) : M A := fun s => (s, Normal a).

Definition throw {A} (e : Exn) : M A := fun s => (s, Throw e).

Definition bind {A B} (m : M A) (k : A -> M B) : M B :=
  fun s =>
    match m s with
    | (s', Normal a) => k a s'
    | (s', Throw e) => (s', Throw e)
    end.

(** [try { m } catch (error) { handler }], also [promise.catch(handler)]. *)
Definition try_catch {A} (m : M A) (handler : Exn -> M A) : M A :=
  fun s =>
    match m s with
    | (s', Normal a) => (s', Normal a)
    | (s', Throw e) => handler e s'
    end.

(** An awaited call to a collaborator, entered in the log. *)
Definition call {A} (ev : Event) (op : W -> W * Completion A) : M A :=
  fun '(w, log) =>
    let (w', c) := op w in
    ((w', log ++ [(ev, outcome c)]), c).

(** A computation that neither fails nor is a backend call. *)
Definition local {A} (op : W -> W * A) : M A :=
  fun '(w, log) => let (w', a) := op w in ((w', log), Normal a).

Definition lift {A} (c : Completion A) : M A := fun s => (s, c).

Definition run {A} (m : M A) (w : W) : W * Log * Completion A := m (w, []).

Notation "x <- c ;; k" := (bind c (fun x => k))
  (at level 61, c at next level, right associativity).

Definition createAdminClient : M unit :=
  call E_createAdminClient (be_createAdminClient backend).
Definition createSessionClient : M unit :=
  call E_createSessionClient (be_createSessionClient backend).
Definition getCurrentUser : M (option User) :=
  call E_getCurrentUser (be_getCurrentUser backend).
Definition ID_unique : M string := local (be_ID_unique backend).
Definition storage_createFile (bucket fileId : string) (file : InputFile) : M BucketFile :=
  call (E_storage_createFile bucket fileId file)
       (fun w => be_storage_createFile backend w bucket fileId file).
Definition storage_deleteFile (bucket fileId : string) : M unit :=
  call (E_storage_deleteFile bucket fileId)
       (fun w => be_storage_deleteFile backend w bucket fileId).
Definition databases_createDocument (db coll id : string) (data : FileDocument) : M Document :=
  call (E_databases_createDocument db coll id data)
       (fun w => be_databases_createDocument backend w db coll id data).
Definition databases_updateDocument (db coll id : string) (data : Patch) : M Document :=
  call (E_databases_updateDocument db coll id data)
       (fun w => be_databases_updateDocument backend w db coll id data).
Definition databases_deleteDocument (db coll id : string) : M Js.value :=
  call (E_databases_deleteDocument db coll id)
       (fun w => be_databases_deleteDocument backend w db coll id).
Definition databases_listDocuments (db coll : string) (queries : list Query) : M DocumentList :=
  call (E_databases_listDocuments db coll queries)
       (fun w => be_databases_listDocuments backend w db coll queries).
Definition revalidatePath (path : string) : M unit :=
  call (E_revalidatePath path) (fun w => be_revalidatePath backend w path).

(** [handleError], lines 12-14: the message is not used. *)
Definition handleError {A} (error : Exn) (message : string) : M A :=
  throw error.

(** The object literal [fileDocument] of [uploadFile], lines 38-48. *)
Definition fileDocument (bucketFile : BucketFile) (ownerId accountId : string)
    : FileDocument :=
  {| fd_type := fti_type (getFileType (bf_name bucketFile));
     fd_name := bf_name bucketFile;
     fd_url := constructFileUrl (bf_id bucketFile);
     fd_extension := fti_extension (getFileType (bf_name bucketFile));
     fd_size := bf_sizeOriginal bucketFile;
     fd_owner := ownerId;
     fd_accountId := accountId;
     fd_users := [];
     fd_bucketFileId := bf_id bucketFile |}.

(** [uploadFile], lines 24-70. *)
Definition uploadFile (props : UploadFileProps) : M Document :=
  let file := up_file props in
  let ownerId := up_ownerId props in
  let accountId := up_accountId props in
  let path := up_path props in
  _ <- createAdminClient ;;
  try_catch
    (let inputFile := InputFile_fromBuffer file (file_name file) in
     fileId <- ID_unique ;;
     bucketFile <- storage_createFile (bucketId appwriteConfig) fileId inputFile ;;
     let fileDocument := fileDocument bucketFile ownerId accountId in
     documentId <- ID_unique ;;
     newFile <-
       try_catch
         (databases_createDocument (databaseId appwriteConfig)
            (filesCollectionId appwriteConfig) documentId fileDocument)
         (fun error =>
            _ <- storage_deleteFile (bucketId appwriteConfig) (bf_id bucketFile) ;;
            handleError error "Failed to create file document") ;;
     _ <- revalidatePath path ;;
     ret (parseStringify newFile))
    (fun error => handleError error "Failed to upload file").

(** [getFiles], lines 105-128. *)
Definition getFiles (props : GetFilesProps) : M DocumentList :=
  let types := default [] (gf_types props) in
  let searchText := default "" (gf_searchText props) in
  let sort := default "$createdAt-desc" (gf_sort props) in
  let limit := gf_limit props in
  _ <- createAdminClient ;;
  try_catch
    (currentUser <- getCurrentUser ;;
     match currentUser with
     | None => throw (Error "User not found")
     | Some currentUser =>
         let queries := createQueries currentUser types searchText sort limit in
         files <- databases_listDocuments (databaseId appwriteConfig)
                    (filesCollectionId appwriteConfig) queries ;;
         ret (parseStringify files)
     end)
    (fun error => handleError error "Failed to get files").

(** [renameFile], lines 139-165. *)
Definition renameFile (props : RenameFileProps) : M Document :=
  let fileId := rn_fileId props in
  let name := rn_name props in
  let extension := rn_extension props in
  let path := rn_path props in
  _ <- createAdminClient ;;
  try_catch
    (let newName := (name ++ "." ++ extension)%string in
     updatedFile <- databases_updateDocument (databaseId appwriteConfig)
                      (filesCollectionId appwriteConfig) fileId
                      [("name", PV_string newName)] ;;
     _ <- revalidatePath path ;;
     ret (parseStringify updatedFile))
    (fun error => handleError error "Failed to rename file").

(** [updateFileUsers], lines 175-199. *)
Definition updateFileUsers (props : UpdateFileUsersProps) : M Document :=
  let fileId := uu_fileId props in
  let emails := uu_emails props in
  let path := uu_path props in
  _ <- createAdminClient ;;
  try_catch
    (updatedFile <- databases_updateDocument (databaseId appwriteConfig)
                      (filesCollectionId appwriteConfig) fileId
                      [("users", PV_strings emails)] ;;
     _ <- revalidatePath path ;;
     ret (parseStringify updatedFile))
    (fun error => handleError error "Failed to rename file").

(** [deleteFile], lines 209-233. *)
Definition deleteFile (props : DeleteFileProps) : M Status :=
  let fileId := df_fileId props in
  let bucketFileId := df_bucketFileId props in
  let path := df_path props in
  _ <- createAdminClient ;;
  try_catch
    (deletedFile <- databases_deleteDocument (databaseId appwriteConfig)
                      (filesCollectionId appwriteConfig) fileId ;;
     _ <- (if Js.truthy deletedFile
           then storage_deleteFile (bucketId appwriteConfig) bucketFileId
           else ret tt) ;;
     _ <- revalidatePath path ;;
     ret (parseStringify {| status := "success" |}))
    (fun error => handleError error "Failed to rename file").

(** [new Date(a) > new Date(b)]: false as soon as one side is [NaN]. *)
Definition Date_gt (a b : string) : bool :=
  match Date_valueOf a, Date_valueOf b with
  | Some x, Some y => y <? x
  | _, _ => false
  end.

(** The callback of [files.documents.forEach], lines 259-268.  The module
    is an ES module, hence strict code: writing a property on the number
    held by [used] or [all] throws. *)
Definition tally (totalSpace : TotalSpace) (file : Document) : Completion TotalSpace :=
  let fileType := doc_type file in
  match get_property totalSpace fileType with
  | OwnBucket k =>
      let totalSpace :=
        set_size k (Js.add (size (bucket k totalSpace)) (doc_size file)) totalSpace in
      let totalSpace := set_used (Js.add (used totalSpace) (doc_size file)) totalSpace in
      if negb (Js.truthy_string (latestDate (bucket k totalSpace)))
         || Date_gt (doc_updatedAt file) (latestDate (bucket k totalSpace))
      then Normal (set_latestDate k (doc_updatedAt file) totalSpace)
      else Normal totalSpace
  | OwnNumber _ => Throw (TypeError CreatePropertyOnPrimitive)
  | Inherited =>
      (* [size] and [latestDate] are written on the inherited object, which
         is not part of the literal; only [used] changes in it. *)
      Normal (set_used (Js.add (used totalSpace) (doc_size file)) totalSpace)
  | Missing => Throw (TypeError ReadPropertyOfUndefined)
  end.

(** The [latestDate] of a bucket after a record stamped [candidate] has
    been tallied into it (the outcome of the test on line 265). *)
Definition later_of (current candidate : string) : string :=
  if negb (Js.truthy_string current) || Date_gt candidate current
  then candidate else current.

(** The totals after a record has been tallied into bucket [k]. *)
Definition tallied (k : BucketKey) (file : Document) (t : TotalSpace) : TotalSpace :=
  set_bucket k
    {| size := Js.add (size (bucket k t)) (doc_size file);
       latestDate := later_of (latestDate (bucket k t)) (doc_updatedAt file) |}
    (set_used (Js.add (used t) (doc_size file)) t).

(** [documents.forEach(callback)] over the running totals; an exception
    leaves the loop. *)
Fixpoint forEach (files : list Document) (totalSpace : TotalSpace) : Completion TotalSpace :=
  match files with
  | [] => Normal totalSpace
  | file :: rest =>
      match tally totalSpace file with
      | Normal totalSpace' => forEach rest totalSpace'
      | Throw e => Throw e
      end
  end.

(** The Storage Aggregator: lines 249-268 as a function of the records. *)
Definition aggregate (files : list Document) : Completion TotalSpace :=
  forEach files totalSpace_literal.

(** [getTotalSpaceUsed], lines 237-277. *)
Definition getTotalSpaceUsed : M TotalSpace :=
  try_catch
    (_ <- createSessionClient ;;
     currentUser <- getCurrentUser ;;
     match currentUser with
     | None => throw (Error "User is not authenticated.")
     | Some currentUser =>
         files <- databases_listDocuments (databaseId appwriteConfig)
                    (filesCollectionId appwriteConfig)
                    [Query_equal "owner" (QV_array [user_id currentUser])] ;;
         totalSpace <- lift (aggregate (documents files)) ;;
         ret (parseStringify totalSpace)
     end)
    (fun error => handleError error "Error calculating total space used:, ").

(** Every action behind one entry point. *)
Definition perform (a : Action) : M Reply :=
  match a with
  | A_uploadFile props => d <- uploadFile props ;; ret (R_document d)
  | A_getFiles props => l <- getFiles props ;; ret (R_documents l)
  | A_renameFile props => d <- renameFile props ;; ret (R_document d)
  | A_updateFileUsers props => d <- updateFileUsers props ;; ret (R_document d)
  | A_deleteFile props => s <- deleteFile props ;; ret (R_status s)
  | A_getTotalSpaceUsed => t <- getTotalSpaceUsed ;; ret (R_totalSpace t)
  end.

(** *** Well-formed timestamps *)

(** A backend-generated timestamp: a non-empty string that is a date. *)
Definition valid_timestamp (file : Document) : Prop :=
  doc_updatedAt file <> "" /\ Date_valueOf (doc_updatedAt file) <> None.

(** Two runs of the aggregator agree: both throw, or both return the same
    totals. *)
Definition agree (x y : Completion TotalSpace) : Prop :=
  match x, y with
  | Normal t, Normal t' => t = t'
  | Throw _, Throw _ => True
  | _, _ => False
  end.

End Model.

Arguments run {W A} m w.

(** The calls made by a run, and its completion. *)
Definition log_of {W A} (r : W * Log * Completion A) : Log := snd (fst r).
Definition result_of {W A} (r : W * Log * Completion A) : Completion A := snd r.

Definition events (log : Log) : list Event := map fst log.
Arguments ret {W A} a _.
Arguments throw {W A} e _.

(** Two runs of the aggregator agree on the byte counts: both throw, or
    every bucket's [size], [used] and [all] coincide. *)
Definition same_sizes (x y : Completion TotalSpace) : Prop :=
  match x, y with
  | Normal t, Normal t' =>
      (forall k, size (bucket k t) = size (bucket k t'))
      /\ used t = used t' /\ all t = all t'
  | Throw _, Throw _ => True
  | _, _ => False
  end.

Definition BucketKey_eqb (a b : BucketKey) : bool :=
  match a, b with
  | K_image, K_image | K_document, K_document | K_video, K_video
  | K_audio, K_audio | K_other, K_other => true
  | _, _ => false
  end.

(** The record is tallied into bucket [k]. *)
Definition in_bucket (k : BucketKey) (file : Document) : bool :=
  match get_property totalSpace_literal (doc_type file) with
  | OwnBucket k' => BucketKey_eqb k k'
  | _ => false
  end.

(** The sum of the sizes of the records. *)
Definition total_size (files : list Document) : Z :=
  fold_right (fun file acc => doc_size file + acc) 0 files.

(** The keys for which [totalSpace[key]] is an object. *)
Definition indexable (key : string) : bool :=
  known_type key || existsb (String.eqb key) Object_prototype_properties.

(** ** Sample data *)

Definition alice : User := {| user_id := "u1"; user_email := "alice@example.com" |}.

Definition config : AppwriteConfig :=
  {| bucketId := "bucket"; databaseId := "db"; filesCollectionId := "files" |}.

Definition sample_getFileType (name : string) : FileTypeInfo :=
  {| fti_type := "other"; fti_extension := "" |}.

Definition sample_constructFileUrl (id : string) : string :=
  ("https://storage.example/" ++ id)%string.

Definition sample_file : File := {| file_name := "a.png"; file_bytes := [] |}.

Definition sample_blob : BucketFile :=
  {| bf_id := "blob1"; bf_name := "a.png"; bf_sizeOriginal := 1000 |}.

Definition sample_record (ident type updatedAt : string) (bytes : Z) : Document :=
  {| doc_id := ident; doc_updatedAt := updatedAt; doc_type := type;
     doc_name := "a.png"; doc_size := bytes; doc_owner := "u1" |}.

(** Two image records of the same instant, written with [Z] and with
    [+00:00]. *)
Definition photo_z : Document :=
  sample_record "f1" "image" "2024-01-01T00:00:00.000Z" 1000.
Definition photo_utc : Document :=
  sample_record "f2" "image" "2024-01-01T00:00:00.000+00:00" 2000.
Definition photo_later : Document :=
  sample_record "f3" "image" "2024-06-01T12:00:00.000+00:00" 500.
Definition clip : Document :=
  sample_record "f4" "video" "2024-02-01T00:00:00.000+00:00" 7000.
Definition odd_constructor : Document :=
  sample_record "f5" "constructor" "2024-01-01T00:00:00.000+00:00" 300.
Definition odd_pdf : Document :=
  sample_record "f6" "pdf" "2024-01-01T00:00:00.000+00:00" 300.

(** An image of 2^53 bytes and an image of one byte. *)
Definition photo_huge : Document :=
  sample_record "f9" "image" "2024-01-01T00:00:00.000+00:00" 9007199254740992.
Definition photo_byte : Document :=
  sample_record "f10" "image" "2024-01-01T00:00:00.000+00:00" 1.

(** A script in which every collaborator succeeds. *)
Definition happy : Script :=
  {| s_createAdminClient := Normal tt;
     s_createSessionClient := Normal tt;
     s_getCurrentUser := Normal (Some alice);
     s_createFile := Normal sample_blob;
     s_deleteFile := Normal tt;
     s_createDocument := Normal photo_z;
     s_updateDocument := Normal photo_z;
     s_deleteDocument := Normal (Js.Object []);
     s_listDocuments := Normal {| total := 0; documents := [] |};
     s_revalidatePath := Normal tt |}.

Definition with_getCurrentUser (c : Completion (option User)) (s : Script) : Script :=
  {| s_createAdminClient := s_createAdminClient s;
     s_createSessionClient := s_createSessionClient s;
     s_getCurrentUser := c;
     s_createFile := s_createFile s;
     s_deleteFile := s_deleteFile s;
     s_createDocument := s_createDocument s;
     s_updateDocument := s_updateDocument s;
     s_deleteDocument := s_deleteDocument s;
     s_listDocuments := s_listDocuments s;
     s_revalidatePath := s_revalidatePath s |}.

Definition with_createFile (c : Completion BucketFile) (s : Script) : Script :=
  {| s_createAdminClient := s_createAdminClient s;
     s_createSessionClient := s_createSessionClient s;
     s_getCurrentUser := s_getCurrentUser s;
     s_createFile := c;
     s_deleteFile := s_deleteFile s;
     s_createDocument := s_createDocument s;
     s_updateDocument := s_updateDocument s;
     s_deleteDocument := s_deleteDocument s;
     s_listDocuments := s_listDocuments s;
     s_revalidatePath := s_revalidatePath s |}.

Definition with_deleteFile (c : Completion unit) (s : Script) : Script :=
  {| s_createAdminClient := s_createAdminClient s;
     s_createSessionClient := s_createSessionClient s;
     s_getCurrentUser := s_getCurrentUser s;
     s_createFile := s_createFile s;
     s_deleteFile := c;
     s_createDocument := s_createDocument s;
     s_updateDocument := s_updateDocument s;
     s_deleteDocument := s_deleteDocument s;
     s_listDocuments := s_listDocuments s;
     s_revalidatePath := s_revalidatePath s |}.

Definition with_createDocument (c : Completion Document) (s : Script) : Script :=
  {| s_createAdminClient := s_createAdminClient s;
     s_createSessionClient := s_createSessionClient s;
     s_getCurrentUser := s_getCurrentUser s;
     s_createFile := s_createFile s;
     s_deleteFile := s_deleteFile s;
     s_createDocument := c;
     s_updateDocument := s_updateDocument s;
     s_deleteDocument := s_deleteDocument s;
     s_listDocuments := s_listDocuments s;
     s_revalidatePath := s_revalidatePath s |}.

Definition with_deleteDocument (c : Completion Js.value) (s : Script) : Script :=
  {| s_createAdminClient := s_createAdminClient s;
     s_createSessionClient := s_createSessionClient s;
     s_getCurrentUser := s_getCurrentUser s;
     s_createFile := s_createFile s;
     s_deleteFile := s_deleteFile s;
     s_createDocument := s_createDocument s;
     s_updateDocument := s_updateDocument s;
     s_deleteDocument := c;
     s_listDocuments := s_listDocuments s;
     s_revalidatePath := s_revalidatePath s |}.

Definition with_listDocuments (c : Completion DocumentList) (s : Script) : Script :=
  {| s_createAdminClient := s_createAdminClient s;
     s_createSessionClient := s_createSessionClient s;
     s_getCurrentUser := s_getCurrentUser s;
     s_createFile := s_createFile s;
     s_deleteFile := s_deleteFile s;
     s_createDocument := s_createDocument s;
     s_updateDocument := s_updateDocument s;
     s_deleteDocument := s_deleteDocument s;
     s_listDocuments := c;
     s_revalidatePath := s_revalidatePath s |}.

(** ** Vocabulary for the further properties *)

Definition is_limit (q : Query) : bool :=
  match q with
  | Query_limit _ => true
  | _ => false
  end.

Definition is_revalidatePath (ev : Event) : bool :=
  match ev with
  | E_revalidatePath _ => true
  | _ => false
  end.

(** Sizes for which every addition of the aggregator is exact: none is
    negative and their total is at most 2^53. *)
Definition sizes_within (files : list Document) : Prop :=
  Forall (fun file => 0 <= doc_size file) files /\ total_size files <= 2 ^ 53.

(** Every record that is tallied into a bucket carries a valid timestamp. *)
Definition dated_records (Date_valueOf : string -> option Z)
    (files : list Document) : Prop :=
  forall file k, In file files -> in_bucket k file = true ->
    valid_timestamp Date_valueOf file.

(** Within a bucket, one spelling per instant, as the backend writes its
    timestamps. *)
Definition canonical_per_bucket (Date_valueOf : string -> option Z)
    (files : list Document) : Prop :=
  forall k a b, In a files -> In b files ->
    in_bucket k a = true -> in_bucket k b = true ->
    Date_valueOf (doc_updatedAt a) = Date_valueOf (doc_updatedAt b) ->
    doc_updatedAt a = doc_updatedAt b.

(** The instant of [x] is not after the instant of [y] (both are dates). *)
Definition not_after (Date_valueOf : string -> option Z) (x y : string) : Prop :=
  exists a b, Date_valueOf x = Some a /\ Date_valueOf y = Some b /\ a <= b.

(** The actions that write to a backend (all but the two readers). *)
Definition mutating (a : Action) : bool :=
  match a with
  | A_getFiles _ | A_getTotalSpaceUsed => false
  | _ => true
  end.

(** The [path] an action is given, if it takes one. *)
Definition path_of (a : Action) : option string :=
  match a with
  | A_uploadFile props => Some (up_path props)
  | A_renameFile props => Some (rn_path props)
  | A_updateFileUsers props => Some (uu_path props)
  | A_deleteFile props => Some (df_path props)
  | A_getFiles _ | A_getTotalSpaceUsed => None
  end.

(** * Properties *)

(** ** JavaScript numbers *)

(** Beyond 2^53 a sum is rounded to the nearest double, ties to even. *)
Example add_rounds :
  Js.add 9007199254740992 1 = 9007199254740992
  /\ Js.add 9007199254740994 1 = 9007199254740996
  /\ Js.add 9007199254740992 2 = 9007199254740994
  /\ Js.add 1000 2000 = 3000
  /\ Js.add (-9007199254740992) (-1) = -9007199254740992.
Proof. repeat split; reflexivity. Qed.

(** ** Query Builder *)

Example split_size_asc : Js.split hyphen "size-asc" = ("size", ["asc"]).
Proof. reflexivity. Qed.

Example split_three : Js.split hyphen "a-b-asc" = ("a", ["b"; "asc"]).
Proof. reflexivity. Qed.

Example createQueries_example :
  createQueries alice ["image"] "cat" "size-asc" (Some (Js.Int 5))
  = [ visibility alice;
      Query_equal "type" (QV_array ["image"]);
      Query_contains "name" (QV_string "cat");
      Query_limit (Js.Int 5);
      Query_orderAsc "size" ].
Proof. reflexivity. Qed.

Example createQueries_limit_zero :
  createQueries alice [] "" "" (Some (Js.Int 0)) = [visibility alice].
Proof. reflexivity. Qed.

(** C3. For every current user, type list, search text, sort and limit, the
    list built by [createQueries] starts with the visibility predicate
    (owner equals the user's id OR users contains the user's email): it is
    never absent and never displaced from the first position. *)
Theorem createQueries_visibility_first :
  forall currentUser types searchText sort limit,
    exists rest,
      createQueries currentUser types searchText sort limit
      = Query_or [ Query_equal "owner" (QV_array [user_id currentUser]);
                   Query_contains "users" (QV_array [user_email currentUser]) ]
        :: rest.
Proof.
  intros u types searchText sort limit.
  unfold createQueries, push.
  destruct (0 <? length types)%nat;
    destruct (Js.truthy_string searchText);
    destruct limit as [n|]; try destruct (Js.truthy_number n);
    destruct (Js.truthy_string sort);
    try destruct (Js.split hyphen sort);
    simpl; eexists; reflexivity.
Qed.

Lemma split_no_hyphen s : no_hyphen s = true -> Js.split hyphen s = (s, []).
Proof.
  induction s as [|c s IH]; simpl; intros H; [reflexivity|].
  apply andb_true_iff in H. destruct H as [Hc Hs].
  rewrite (IH Hs). apply negb_true_iff in Hc. rewrite Hc. reflexivity.
Qed.

Lemma split_field_direction field rest :
  no_hyphen field = true ->
  Js.split hyphen (field ++ String hyphen rest)
  = (field, fst (Js.split hyphen rest) :: snd (Js.split hyphen rest)).
Proof.
  induction field as [|c s IH]; simpl; intros H.
  - destruct (Js.split hyphen rest). reflexivity.
  - apply andb_true_iff in H. destruct H as [Hc Hs].
    rewrite (IH Hs). apply negb_true_iff in Hc. rewrite Hc. reflexivity.
Qed.

Lemma truthy_append_hyphen field rest :
  Js.truthy_string (field ++ String hyphen rest) = true.
Proof. destruct field; reflexivity. Qed.

(** Without a sort the builder adds no ordering predicate. *)
Lemma createQueries_unsorted_no_order u types searchText limit :
  forallb (fun q => negb (is_order q)) (createQueries u types searchText "" limit) = true.
Proof.
  unfold createQueries, push.
  destruct (0 <? length types)%nat;
    destruct (Js.truthy_string searchText);
    destruct limit as [n|]; try destruct (Js.truthy_number n);
    reflexivity.
Qed.

(** A truthy sort adds exactly one predicate, at the end. *)
Lemma createQueries_sorted u types searchText sort limit :
  Js.truthy_string sort = true ->
  createQueries u types searchText sort limit
  = createQueries u types searchText "" limit
    ++ [ if Js.strict_equal (hd_error (snd (Js.split hyphen sort))) "asc"
         then Query_orderAsc (fst (Js.split hyphen sort))
         else Query_orderDesc (fst (Js.split hyphen sort)) ].
Proof.
  intros H. unfold createQueries, push. rewrite H. simpl Js.truthy_string.
  destruct (Js.split hyphen sort) as [sortBy rest]. reflexivity.
Qed.

(** Splits on every test of [createQueries]. *)
Ltac builder_cases types searchText sort limit :=
  unfold createQueries, push;
  destruct types; simpl length; simpl Nat.ltb;
  destruct searchText; simpl Js.truthy_string;
  destruct limit as [[?z|]|]; simpl Js.truthy_number;
  try match goal with
      | |- context [negb (Z.eqb ?z 0)] => destruct (Z.eqb_spec z 0); simpl negb
      end;
  destruct sort; simpl Js.truthy_string;
  try match goal with
      | |- context [Js.split ?h ?s] => destruct (Js.split h s) as [?sortBy ?rest]
      end;
  try match goal with
      | |- context [Js.strict_equal ?x ?y] => destruct (Js.strict_equal x y)
      end;
  simpl.

(** Decides membership of a predicate in a built list. *)
Ltac member :=
  repeat match goal with
    | H : _ \/ _ |- _ => destruct H
    | H : _ /\ _ |- _ => destruct H
    | H : False |- _ => destruct H
    | H : _ = _ |- _ => discriminate H
    | H : Query_limit _ = Query_limit _ |- _ => inversion H; subst; clear H
    | H : Query_equal _ _ = Query_equal _ _ |- _ => inversion H; subst; clear H
    | H : Query_contains _ _ = Query_contains _ _ |- _ => inversion H; subst; clear H
    | H : Some _ = Some _ |- _ => inversion H; subst; clear H
    end;
  subst; try congruence; try lia; try tauto;
  try (repeat split; congruence);
  try (simpl; intuition congruence).

(** X1. The builder caps the result count exactly when a limit is given
    and is truthy, that is neither zero nor [NaN], and then with the given
    number (negative numbers included). *)
Theorem createQueries_limit_iff
    (currentUser : User) (types : list string) (searchText sort : string)
    (limit : option Js.number) (n : Js.number) :
  In (Query_limit n) (createQueries currentUser types searchText sort limit)
  <-> limit = Some n /\ n <> Js.Int 0 /\ n <> Js.NaN.
Proof.
  builder_cases types searchText sort limit; split; intros H; member.
Qed.

(** X2. The builder restricts the [type] attribute exactly when the list
    of types is not empty, and then to the whole list. *)
Theorem createQueries_type_filter_iff
    (currentUser : User) (types : list string) (searchText sort : string)
    (limit : option Js.number) (value : QueryValue) :
  In (Query_equal "type" value) (createQueries currentUser types searchText sort limit)
  <-> types <> [] /\ value = QV_array types.
Proof.
  builder_cases types searchText sort limit; split; intros H; member.
Qed.

(** X3. The builder searches the [name] attribute exactly when the search
    text is not empty, and then for that text. *)
Theorem createQueries_search_iff
    (currentUser : User) (types : list string) (searchText sort : string)
    (limit : option Js.number) (value : QueryValue) :
  In (Query_contains "name" value)
     (createQueries currentUser types searchText sort limit)
  <-> searchText <> "" /\ value = QV_string searchText.
Proof.
  builder_cases types searchText sort limit; split; intros H; member.
Qed.

(** X4. A non-empty sort without a hyphen has no direction: the builder
    orders descending on the whole string. *)
Theorem createQueries_sort_without_direction
    (currentUser : User) (types : list string) (searchText sort : string)
    (limit : option Js.number) :
  sort <> "" ->
  no_hyphen sort = true ->
  createQueries currentUser types searchText sort limit
  = createQueries currentUser types searchText "" limit ++ [Query_orderDesc sort].
Proof.
  intros Hne Hs.
  rewrite createQueries_sorted by (destruct sort; [congruence | reflexivity]).
  rewrite (split_no_hyphen sort Hs). reflexivity.
Qed.

(** X5. Only the first two segments of the sort count: whatever follows a
    second hyphen is ignored, so [size-asc-anything] orders ascending on
    [size]. *)
Theorem createQueries_sort_extra_segments
    (currentUser : User) (types : list string) (searchText : string)
    (limit : option Js.number) (field direction rest : string) :
  no_hyphen field = true ->
  no_hyphen direction = true ->
  createQueries currentUser types searchText
    (field ++ "-" ++ direction ++ "-" ++ rest)%string limit
  = createQueries currentUser types searchText
      (field ++ "-" ++ direction)%string limit.
Proof.
  intros Hf Hd.
  change (field ++ "-" ++ direction ++ "-" ++ rest)%string
    with (field ++ String hyphen (direction ++ String hyphen rest))%string.
  change (field ++ "-" ++ direction)%string
    with (field ++ String hyphen direction)%string.
  rewrite (createQueries_sorted currentUser types searchText
             (field ++ String hyphen (direction ++ String hyphen rest)) limit)
    by apply truthy_append_hyphen.
  rewrite (createQueries_sorted currentUser types searchText
             (field ++ String hyphen direction) limit)
    by apply truthy_append_hyphen.
  rewrite (split_field_direction field direction Hf).
  rewrite (split_field_direction field (direction ++ String hyphen rest) Hf).
  rewrite (split_field_direction direction rest Hd).
  rewrite (split_no_hyphen direction Hd). reflexivity.
Qed.

(** X6. The builder yields between one and five predicates, at most one
    of them a limit and at most one an ordering. *)
Theorem createQueries_shape
    (currentUser : User) (types : list string) (searchText sort : string)
    (limit : option Js.number) :
  let queries := createQueries currentUser types searchText sort limit in
  (1 <= length queries <= 5)%nat
  /\ (length (filter is_limit queries) <= 1)%nat
  /\ (length (filter is_order queries) <= 1)%nat.
Proof.
  builder_cases types searchText sort limit; repeat split; lia.
Qed.

(** ** The actions *)

Section ActionProperties.

Variable W : Type.
Variable backend : Backend W.
Variable appwriteConfig : AppwriteConfig.
Variable getFileType : string -> FileTypeInfo.
Variable constructFileUrl : string -> string.
Variable Date_valueOf : string -> option Z.

Local Abbreviation uploadFile :=
  (uploadFile W backend appwriteConfig getFileType constructFileUrl).
Local Abbreviation getFiles := (getFiles W backend appwriteConfig).
Local Abbreviation renameFile := (renameFile W backend appwriteConfig).
Local Abbreviation updateFileUsers := (updateFileUsers W backend appwriteConfig).
Local Abbreviation deleteFile := (deleteFile W backend appwriteConfig).
Local Abbreviation getTotalSpaceUsed :=
  (getTotalSpaceUsed W backend appwriteConfig Date_valueOf).
Local Abbreviation perform :=
  (perform W backend appwriteConfig getFileType constructFileUrl Date_valueOf).
Local Abbreviation aggregate := (aggregate Date_valueOf).

(** Unfolds an action down to the oracle's answers. *)
Ltac expose :=
  unfold log_of, result_of, run, perform,
    uploadFile, getFiles, renameFile, updateFileUsers, deleteFile, getTotalSpaceUsed,
    createAdminClient, createSessionClient, getCurrentUser, ID_unique,
    storage_createFile, storage_deleteFile, databases_createDocument,
    databases_updateDocument, databases_deleteDocument, databases_listDocuments,
    revalidatePath, handleError, bind, try_catch, throw, ret, call, local, lift;
  simpl.

(** Case analysis on the next answer of the oracle. *)
Ltac answer :=
  match goal with
  | |- context [be_createAdminClient ?b ?w] =>
      destruct (be_createAdminClient b w) as [? [[]|?]] eqn:?
  | |- context [be_createSessionClient ?b ?w] =>
      destruct (be_createSessionClient b w) as [? [[]|?]] eqn:?
  | |- context [be_getCurrentUser ?b ?w] =>
      destruct (be_getCurrentUser b w) as [? [[?|]|?]] eqn:?
  | |- context [be_ID_unique ?b ?w] =>
      destruct (be_ID_unique b w) as [? ?] eqn:?
  | |- context [be_storage_createFile ?b ?w ?x ?y ?z] =>
      destruct (be_storage_createFile b w x y z) as [? [?|?]] eqn:?
  | |- context [be_storage_deleteFile ?b ?w ?x ?y] =>
      destruct (be_storage_deleteFile b w x y) as [? [[]|?]] eqn:?
  | |- context [be_databases_createDocument ?b ?w ?x ?y ?z ?d] =>
      destruct (be_databases_createDocument b w x y z d) as [? [?|?]] eqn:?
  | |- context [be_databases_updateDocument ?b ?w ?x ?y ?z ?d] =>
      destruct (be_databases_updateDocument b w x y z d) as [? [?|?]] eqn:?
  | |- context [be_databases_deleteDocument ?b ?w ?x ?y ?z] =>
      destruct (be_databases_deleteDocument b w x y z) as [? [?|?]] eqn:?
  | |- context [be_databases_listDocuments ?b ?w ?x ?y ?z] =>
      destruct (be_databases_listDocuments b w x y z) as [? [?|?]] eqn:?
  | |- context [be_revalidatePath ?b ?w ?x] =>
      destruct (be_revalidatePath b w x) as [? [[]|?]] eqn:?
  end; simpl.

(** Closes the goals left once every answer is known. *)
Ltac finish :=
  unfold last_failure, events in *; simpl in *;
  repeat match goal with
    | H : _ \/ _ |- _ => destruct H
    | H : exists _, _ |- _ => destruct H
    | H : _ /\ _ |- _ => destruct H
    | H : False |- _ => destruct H
    | H : _ = _ |- _ => discriminate H
    | H : Some _ = Some _ |- _ => inversion H; subst; clear H
    | H : Normal _ = Normal _ |- _ => inversion H; subst; clear H
    | H : Throw _ = Throw _ |- _ => inversion H; subst; clear H
    | H : (_, _) = (_, _) |- _ => inversion H; subst; clear H
    | H : E_storage_deleteFile _ _ = _ |- _ => inversion H; subst; clear H
    | H : E_databases_updateDocument _ _ _ _ = _ |- _ => inversion H; subst; clear H
    | H : E_databases_listDocuments _ _ _ = _ |- _ => inversion H; subst; clear H
    end;
  try congruence; try reflexivity;
  try (repeat split; reflexivity);
  try (simpl; intuition congruence);
  eauto 6.

(** C1. Upload: when the blob is created and the creation of its document
    fails, the next and last call of the action is [storage.deleteFile]
    on the bucket with exactly the id of the blob just created; only then
    does the action throw, and it throws the original failure whenever
    the deletion returns (the failure of the deletion otherwise). *)
Theorem uploadFile_compensation
    (props : UploadFileProps) (w w1 w2 w3 w4 w5 : W)
    (fileId documentId : string) (bucketFile : BucketFile) (error : Exn) :
  be_createAdminClient backend w = (w1, Normal tt) ->
  be_ID_unique backend w1 = (w2, fileId) ->
  be_storage_createFile backend w2 (bucketId appwriteConfig) fileId
    (InputFile_fromBuffer (up_file props) (file_name (up_file props)))
  = (w3, Normal bucketFile) ->
  be_ID_unique backend w3 = (w4, documentId) ->
  be_databases_createDocument backend w4 (databaseId appwriteConfig)
    (filesCollectionId appwriteConfig) documentId
    (fileDocument getFileType constructFileUrl bucketFile
       (up_ownerId props) (up_accountId props))
  = (w5, Throw error) ->
  let deletion :=
    be_storage_deleteFile backend w5 (bucketId appwriteConfig) (bf_id bucketFile) in
  log_of (run (uploadFile props) w)
  = [ (E_createAdminClient, None);
      (E_storage_createFile (bucketId appwriteConfig) fileId
         (InputFile_fromBuffer (up_file props) (file_name (up_file props))), None);
      (E_databases_createDocument (databaseId appwriteConfig)
         (filesCollectionId appwriteConfig) documentId
         (fileDocument getFileType constructFileUrl bucketFile
            (up_ownerId props) (up_accountId props)), Some error);
      (E_storage_deleteFile (bucketId appwriteConfig) (bf_id bucketFile),
       outcome (snd deletion)) ]
  /\ result_of (run (uploadFile props) w)
     = Throw (match snd deletion with
              | Normal _ => error
              | Throw e => e
              end).
Proof.
  intros H1 H2 H3 H4 H5. expose.
  rewrite H1; simpl. rewrite H2; simpl. rewrite H3; simpl.
  rewrite H4; simpl. rewrite H5; simpl.
  destruct (be_storage_deleteFile backend w5 (bucketId appwriteConfig) (bf_id bucketFile))
    as [w6 [[]|e]]; simpl; split; reflexivity.
Qed.

(** C2 as amended. Delete: [storage.deleteFile] is invoked if and only if
    the document deletion returned a truthy value, and then with the
    given [bucketFileId] on the configured bucket; when the document
    deletion throws, the blob deletion is not invoked and the error is
    thrown on; the success marker is returned exactly when no call of the
    action failed. *)
Theorem deleteFile_blob_iff_truthy (props : DeleteFileProps) (w w1 : W) :
  be_createAdminClient backend w = (w1, Normal tt) ->
  let reply :=
    snd (be_databases_deleteDocument backend w1 (databaseId appwriteConfig)
           (filesCollectionId appwriteConfig) (df_fileId props)) in
  let log := log_of (run (deleteFile props) w) in
  let result := result_of (run (deleteFile props) w) in
  (In (E_storage_deleteFile (bucketId appwriteConfig) (df_bucketFileId props))
      (events log)
   <-> exists v, reply = Normal v /\ Js.truthy v = true)
  /\ (forall bucket blob, In (E_storage_deleteFile bucket blob) (events log) ->
        bucket = bucketId appwriteConfig /\ blob = df_bucketFileId props)
  /\ (forall e, reply = Throw e ->
        result = Throw e /\ existsb is_storage_deleteFile (events log) = false)
  /\ (result = Normal {| status := "success" |} <-> last_failure log = None).
Proof.
  intros H1. expose. rewrite H1; simpl.
  answer; [destruct (Js.truthy a) eqn:Ht; simpl; repeat answer|];
    repeat split; intros; finish.
Qed.

(** C8. List and GetTotalSpaceUsed: when the client is created and the
    session provider, asked for the current user, resolves none, the action
    throws its authentication error and has made no call after that one: no
    [listDocuments] call is made. *)
Theorem no_user_no_list_query (props : GetFilesProps) (w w1 w2 : W) :
  (be_createAdminClient backend w = (w1, Normal tt) ->
   be_getCurrentUser backend w1 = (w2, Normal None) ->
   run (getFiles props) w
   = (w2, [(E_createAdminClient, None); (E_getCurrentUser, None)],
      Throw (Error "User not found"))
   /\ existsb is_listDocuments (events (log_of (run (getFiles props) w))) = false)
  /\ (be_createSessionClient backend w = (w1, Normal tt) ->
      be_getCurrentUser backend w1 = (w2, Normal None) ->
      run getTotalSpaceUsed w
      = (w2, [(E_createSessionClient, None); (E_getCurrentUser, None)],
         Throw (Error "User is not authenticated."))
      /\ existsb is_listDocuments (events (log_of (run getTotalSpaceUsed w))) = false).
Proof.
  split; intros H1 H2; expose; rewrite H1; simpl; rewrite H2; simpl;
    split; reflexivity.
Qed.

(** C9. Rename: the one update sent to the database targets [fileId] and
    its data is the single field [name] with the value
    [name ++ "." ++ extension]; no other field is in the update and no
    other update is sent. *)
Theorem renameFile_updates_name_only (props : RenameFileProps) (w w1 : W) :
  be_createAdminClient backend w = (w1, Normal tt) ->
  let newName := (rn_name props ++ "." ++ rn_extension props)%string in
  let log := log_of (run (renameFile props) w) in
  In (E_databases_updateDocument (databaseId appwriteConfig)
        (filesCollectionId appwriteConfig) (rn_fileId props)
        [("name", PV_string newName)]) (events log)
  /\ (forall db coll id data,
        In (E_databases_updateDocument db coll id data) (events log) ->
        id = rn_fileId props
        /\ data = [("name", PV_string newName)]
        /\ map fst data = ["name"])
  /\ length (filter is_updateDocument (events log)) = 1%nat.
Proof.
  intros H1. expose. rewrite H1; simpl.
  repeat answer; repeat split; intros; finish.
Qed.

(** The list query of [getFiles] is the one built by [createQueries] from
    the resolved user and the defaulted arguments. *)
Lemma getFiles_queries (props : GetFilesProps) (w : W) :
  forall db coll queries,
    In (E_databases_listDocuments db coll queries)
       (events (log_of (run (getFiles props) w))) ->
    exists currentUser,
      queries = createQueries currentUser
                  (default [] (gf_types props))
                  (default "" (gf_searchText props))
                  (default "$createdAt-desc" (gf_sort props))
                  (gf_limit props).
Proof.
  expose. repeat answer; intros; finish.
Qed.

(** C5. A sort of the form field-direction adds one ordering predicate,
    last in the list: ascending on the field when the direction is
    ["asc"], descending on the field for every other direction
    (["desc"] included).  When the caller of [getFiles] omits the sort,
    the action, once the client is created and the user resolved, issues
    its list query with the descending order on [$createdAt] as the last
    and only ordering predicate; no list query of the action is built
    otherwise. *)
Theorem createQueries_sort_direction
    (currentUser : User) (types : list string) (searchText : string)
    (limit : option Js.number) (field direction : string) :
  no_hyphen field = true ->
  no_hyphen direction = true ->
  createQueries currentUser types searchText
    (field ++ "-" ++ direction)%string limit
  = createQueries currentUser types searchText "" limit
    ++ [ if (direction =? "asc")%string then Query_orderAsc field
         else Query_orderDesc field ]
  /\ forallb (fun q => negb (is_order q))
       (createQueries currentUser types searchText "" limit) = true
  /\ (forall props w db coll queries,
        gf_sort props = None ->
        In (E_databases_listDocuments db coll queries)
           (events (log_of (run (getFiles props) w))) ->
        exists prefix,
          queries = prefix ++ [Query_orderDesc "$createdAt"]
          /\ forallb (fun q => negb (is_order q)) prefix = true)
  /\ (forall props w w1 w2 user,
        gf_sort props = None ->
        be_createAdminClient backend w = (w1, Normal tt) ->
        be_getCurrentUser backend w1 = (w2, Normal (Some user)) ->
        exists o,
          log_of (run (getFiles props) w)
          = [ (E_createAdminClient, None);
              (E_getCurrentUser, None);
              (E_databases_listDocuments (databaseId appwriteConfig)
                 (filesCollectionId appwriteConfig)
                 (createQueries user (default [] (gf_types props))
                    (default "" (gf_searchText props)) "" (gf_limit props)
                  ++ [Query_orderDesc "$createdAt"]), o) ]).
Proof.
  intros Hf Hd. split; [|split; [|split]].
  - change (field ++ "-" ++ direction)%string
      with (field ++ String hyphen direction)%string.
    rewrite createQueries_sorted by apply truthy_append_hyphen.
    rewrite (split_field_direction field direction Hf).
    rewrite (split_no_hyphen direction Hd). reflexivity.
  - apply createQueries_unsorted_no_order.
  - intros props w db coll queries Hs Hin.
    destruct (getFiles_queries props w db coll queries Hin) as [u Hq].
    rewrite Hs in Hq. simpl default in Hq.
    rewrite createQueries_sorted in Hq by reflexivity.
    eexists. split; [exact Hq|]. apply createQueries_unsorted_no_order.
  - intros props w w1 w2 user Hs H1 H2.
    assert (createQueries user (default [] (gf_types props))
              (default "" (gf_searchText props)) "$createdAt-desc" (gf_limit props)
            = createQueries user (default [] (gf_types props))
                (default "" (gf_searchText props)) "" (gf_limit props)
              ++ [Query_orderDesc "$createdAt"]) as E
      by (rewrite createQueries_sorted by reflexivity; reflexivity).
    expose. rewrite Hs; simpl. rewrite H1; simpl. rewrite H2; simpl.
    rewrite E. answer; eexists; reflexivity.
Qed.

(** What [getTotalSpaceUsed] returns once the records are fetched: the
    aggregate of the listed documents. *)
Lemma getTotalSpaceUsed_aggregate (w w1 w2 w3 : W) (currentUser : User)
    (files : DocumentList) :
  be_createSessionClient backend w = (w1, Normal tt) ->
  be_getCurrentUser backend w1 = (w2, Normal (Some currentUser)) ->
  be_databases_listDocuments backend w2 (databaseId appwriteConfig)
    (filesCollectionId appwriteConfig)
    [Query_equal "owner" (QV_array [user_id currentUser])]
  = (w3, Normal files) ->
  result_of (run getTotalSpaceUsed w) = aggregate (documents files).
Proof.
  intros H1 H2 H3. expose. rewrite H1; simpl. rewrite H2; simpl.
  rewrite H3; simpl.
  destruct (aggregate (documents files)); reflexivity.
Qed.

(** C7. For the empty list of records the aggregator returns the five
    buckets with size 0 and latestDate "", used 0 and all 2147483648; this
    is what GetTotalSpaceUsed returns when the list query finds no record
    of the user. *)
Theorem aggregate_empty (w w1 w2 w3 : W) (currentUser : User) (count : Z) :
  let empty :=
    {| image := {| size := 0; latestDate := "" |};
       document := {| size := 0; latestDate := "" |};
       video := {| size := 0; latestDate := "" |};
       audio := {| size := 0; latestDate := "" |};
       other := {| size := 0; latestDate := "" |};
       used := 0;
       all := 2147483648 |} in
  aggregate [] = Normal empty
  /\ (be_createSessionClient backend w = (w1, Normal tt) ->
      be_getCurrentUser backend w1 = (w2, Normal (Some currentUser)) ->
      be_databases_listDocuments backend w2 (databaseId appwriteConfig)
        (filesCollectionId appwriteConfig)
        [Query_equal "owner" (QV_array [user_id currentUser])]
      = (w3, Normal {| total := count; documents := [] |}) ->
      result_of (run getTotalSpaceUsed w) = Normal empty).
Proof.
  split; [reflexivity|].
  intros H1 H2 H3.
  rewrite (getTotalSpaceUsed_aggregate w w1 w2 w3 currentUser _ H1 H2 H3).
  reflexivity.
Qed.

(** [handleError] throws the error it is given, whatever the message. *)
Lemma handleError_ignores_message {A} (error : Exn) (message : string) (s : W * Log) :
  @handleError W A error message s = (s, Throw error).
Proof. reflexivity. Qed.

(** C4 as amended. For every action and every world: the error of the
    last failed backend call is thrown to the caller as it is (no message
    is attached to it), and after the first failed call the action makes
    no further call, except that Upload, after a failed document
    creation, makes the one compensating [storage.deleteFile] on the
    blob the document refers to. *)
Theorem failures_surface_unchanged (a : Action) (w : W) :
  let log := log_of (run (perform a) w) in
  let result := result_of (run (perform a) w) in
  (forall e, last_failure log = Some e -> result = Throw e)
  /\ (after_first_failure log = []
      \/ exists props db coll id data o,
           a = A_uploadFile props
           /\ first_failed_event log = Some (E_databases_createDocument db coll id data)
           /\ after_first_failure log
              = [(E_storage_deleteFile (bucketId appwriteConfig) (fd_bucketFileId data), o)]).
Proof.
  destruct a; expose; repeat answer;
    try match goal with
        | |- context [Js.truthy ?v] => destruct (Js.truthy v); simpl; repeat answer
        end;
    try match goal with
        | |- context [aggregate ?l] => destruct (aggregate l); simpl
        end;
    (split; [solve [intros; finish]|]);
    try (left; reflexivity);
    right; do 6 eexists; repeat split; reflexivity.
Qed.

(** *** Further properties of the actions *)

(** X7. List: once the client is created and a user resolved, the action
    makes exactly one list query, built by [createQueries] from the user
    and the defaulted arguments, and returns what the database returned,
    unchanged. *)
Theorem getFiles_returns_listing
    (props : GetFilesProps) (w w1 w2 w3 : W) (currentUser : User)
    (files : DocumentList) :
  let queries :=
    createQueries currentUser (default [] (gf_types props))
      (default "" (gf_searchText props))
      (default "$createdAt-desc" (gf_sort props)) (gf_limit props) in
  be_createAdminClient backend w = (w1, Normal tt) ->
  be_getCurrentUser backend w1 = (w2, Normal (Some currentUser)) ->
  be_databases_listDocuments backend w2 (databaseId appwriteConfig)
    (filesCollectionId appwriteConfig) queries
  = (w3, Normal files) ->
  run (getFiles props) w
  = (w3,
     [ (E_createAdminClient, None);
       (E_getCurrentUser, None);
       (E_databases_listDocuments (databaseId appwriteConfig)
          (filesCollectionId appwriteConfig) queries, None) ],
     Normal files).
Proof.
  intros queries H1 H2 H3. subst queries. expose.
  rewrite H1; simpl. rewrite H2; simpl. rewrite H3; simpl. reflexivity.
Qed.

(** X8. List with an explicitly empty sort: the default does not apply,
    and no list query of the action carries an ordering predicate. *)
Theorem getFiles_empty_sort_unordered
    (props : GetFilesProps) (w : W) (db coll : string) (queries : list Query) :
  gf_sort props = Some "" ->
  In (E_databases_listDocuments db coll queries)
     (events (log_of (run (getFiles props) w))) ->
  forallb (fun q => negb (is_order q)) queries = true.
Proof.
  intros Hs Hin.
  destruct (getFiles_queries props w db coll queries Hin) as [u Hq].
  rewrite Hs in Hq. simpl default in Hq. subst queries.
  apply createQueries_unsorted_no_order.
Qed.

(** X9. Upload, when every call succeeds: the calls are client creation,
    blob creation, document creation and the refresh of [path], in this
    order and nothing else (no blob deletion); the document created has
    the blob's name, size and id, the given owner and account, and no
    shares; the action returns the document the database returned. *)
Theorem uploadFile_success
    (props : UploadFileProps) (w w1 w2 w3 w4 w5 w6 : W)
    (fileId documentId : string) (bucketFile : BucketFile) (newFile : Document) :
  let inputFile := InputFile_fromBuffer (up_file props) (file_name (up_file props)) in
  let data := fileDocument getFileType constructFileUrl bucketFile
                (up_ownerId props) (up_accountId props) in
  be_createAdminClient backend w = (w1, Normal tt) ->
  be_ID_unique backend w1 = (w2, fileId) ->
  be_storage_createFile backend w2 (bucketId appwriteConfig) fileId inputFile
  = (w3, Normal bucketFile) ->
  be_ID_unique backend w3 = (w4, documentId) ->
  be_databases_createDocument backend w4 (databaseId appwriteConfig)
    (filesCollectionId appwriteConfig) documentId data
  = (w5, Normal newFile) ->
  be_revalidatePath backend w5 (up_path props) = (w6, Normal tt) ->
  run (uploadFile props) w
  = (w6,
     [ (E_createAdminClient, None);
       (E_storage_createFile (bucketId appwriteConfig) fileId inputFile, None);
       (E_databases_createDocument (databaseId appwriteConfig)
          (filesCollectionId appwriteConfig) documentId data, None);
       (E_revalidatePath (up_path props), None) ],
     Normal newFile)
  /\ fd_name data = bf_name bucketFile
  /\ fd_size data = bf_sizeOriginal bucketFile
  /\ fd_bucketFileId data = bf_id bucketFile
  /\ fd_url data = constructFileUrl (bf_id bucketFile)
  /\ fd_owner data = up_ownerId props
  /\ fd_accountId data = up_accountId props
  /\ fd_users data = [].
Proof.
  intros inputFile data H1 H2 H3 H4 H5 H6. subst inputFile data. expose.
  rewrite H1; simpl. rewrite H2; simpl. rewrite H3; simpl.
  rewrite H4; simpl. rewrite H5; simpl. rewrite H6; simpl.
  repeat split; reflexivity.
Qed.

(** X10. Upload, in every world: [storage.deleteFile] is invoked exactly
    when the document creation was attempted and threw; a failure of any
    other call (client, blob creation, refresh) deletes nothing. *)
Theorem uploadFile_deletes_iff_document_failed (props : UploadFileProps) (w : W) :
  let log := log_of (run (uploadFile props) w) in
  existsb is_storage_deleteFile (events log) = true
  <-> exists db coll id data e,
        In (E_databases_createDocument db coll id data, Some e) log.
Proof.
  expose. repeat answer; (split; intros H;
    [ try discriminate; do 5 eexists; simpl; eauto 6
    | try reflexivity; destruct H as (? & ? & ? & ? & ? & H); finish ]).
Qed.

(** X11. Upload, Rename, UpdateSharing and Delete return normally exactly
    when none of their calls to a collaborator threw. *)
Theorem mutating_returns_iff_no_failure (a : Action) (w : W) :
  mutating a = true ->
  ((exists reply, result_of (run (perform a) w) = Normal reply)
   <-> last_failure (log_of (run (perform a) w)) = None).
Proof.
  intros Hm. destruct a; try discriminate Hm; clear Hm; expose; repeat answer;
    try match goal with
        | |- context [Js.truthy ?v] => destruct (Js.truthy v); simpl; repeat answer
        end;
    (split; intros H; [try reflexivity; finish | try discriminate; eauto]).
Qed.

(** X12. UpdateSharing: the one update sent to the database targets
    [fileId] and its data is the single field [users] holding the given
    list of emails, which therefore replaces the stored list; no other
    update is sent. *)
Theorem updateFileUsers_replaces_users (props : UpdateFileUsersProps) (w w1 : W) :
  be_createAdminClient backend w = (w1, Normal tt) ->
  let log := log_of (run (updateFileUsers props) w) in
  In (E_databases_updateDocument (databaseId appwriteConfig)
        (filesCollectionId appwriteConfig) (uu_fileId props)
        [("users", PV_strings (uu_emails props))]) (events log)
  /\ (forall db coll id data,
        In (E_databases_updateDocument db coll id data) (events log) ->
        id = uu_fileId props
        /\ data = [("users", PV_strings (uu_emails props))])
  /\ length (filter is_updateDocument (events log)) = 1%nat.
Proof.
  intros H1. expose. rewrite H1; simpl.
  repeat answer; repeat split; intros; finish.
Qed.

(** X13. The refresh signal: an action calls [revalidatePath] at most
    once, only with the path it was given, and only when every call
    before it succeeded; List and GetTotalSpaceUsed never call it. *)
Theorem revalidatePath_discipline (a : Action) (w : W) (path : string) :
  let log := log_of (run (perform a) w) in
  In (E_revalidatePath path) (events log) ->
  path_of a = Some path
  /\ length (filter is_revalidatePath (events log)) = 1%nat
  /\ (first_failed_event log = None
      \/ first_failed_event log = Some (E_revalidatePath path)).
Proof.
  destruct a; expose; repeat answer;
    try match goal with
        | |- context [Js.truthy ?v] => destruct (Js.truthy v); simpl; repeat answer
        end;
    try match goal with
        | |- context [aggregate ?l] => destruct (aggregate l); simpl
        end;
    intros H;
    repeat match goal with
      | H : _ \/ _ |- _ => destruct H
      | H : False |- _ => destruct H
      | H : _ = _ |- _ => discriminate H
      | H : E_revalidatePath _ = E_revalidatePath _ |- _ =>
          inversion H; subst; clear H
      end;
    repeat split; auto.
Qed.

(** X14. GetTotalSpaceUsed, once the session client is created and a user
    resolved: the action issues one list query, on the configured database
    and collection, and it is the single predicate "owner equals the id of
    the resolved user": files shared with the user are not fetched, and no
    limit, search or ordering is applied; this holds whether the listing
    then returns or throws. *)
Theorem getTotalSpaceUsed_owner_only (w w1 w2 : W) (currentUser : User) :
  be_createSessionClient backend w = (w1, Normal tt) ->
  be_getCurrentUser backend w1 = (w2, Normal (Some currentUser)) ->
  filter is_listDocuments (events (log_of (run getTotalSpaceUsed w)))
  = [ E_databases_listDocuments (databaseId appwriteConfig)
        (filesCollectionId appwriteConfig)
        [Query_equal "owner" (QV_array [user_id currentUser])] ].
Proof.
  intros H1 H2. expose. rewrite H1; simpl. rewrite H2; simpl.
  answer;
    try match goal with
        | |- context [aggregate ?l] => destruct (aggregate l); simpl
        end;
    reflexivity.
Qed.

(** X18. GetTotalSpaceUsed, once the session client is created, the user
    resolved and the listing returned: the calls are exactly these three,
    and the action completes as the aggregator does on the listed
    documents, an exception of the aggregator being thrown on unchanged. *)
Theorem getTotalSpaceUsed_composes
    (w w1 w2 w3 : W) (currentUser : User) (files : DocumentList) :
  let queries := [Query_equal "owner" (QV_array [user_id currentUser])] in
  be_createSessionClient backend w = (w1, Normal tt) ->
  be_getCurrentUser backend w1 = (w2, Normal (Some currentUser)) ->
  be_databases_listDocuments backend w2 (databaseId appwriteConfig)
    (filesCollectionId appwriteConfig) queries
  = (w3, Normal files) ->
  run getTotalSpaceUsed w
  = (w3,
     [ (E_createSessionClient, None);
       (E_getCurrentUser, None);
       (E_databases_listDocuments (databaseId appwriteConfig)
          (filesCollectionId appwriteConfig) queries, None) ],
     aggregate (documents files)).
Proof.
  intros queries H1 H2 H3. subst queries. expose.
  rewrite H1; simpl. rewrite H2; simpl. rewrite H3; simpl.
  destruct (aggregate (documents files)); reflexivity.
Qed.

End ActionProperties.

(** ** Storage Aggregator *)

Section AggregatorProperties.

Variable Date_valueOf : string -> option Z.

Local Abbreviation Date_gt := (Date_gt Date_valueOf).
Local Abbreviation later_of := (later_of Date_valueOf).
Local Abbreviation tallied := (tallied Date_valueOf).
Local Abbreviation tally := (tally Date_valueOf).
Local Abbreviation forEach := (forEach Date_valueOf).
Local Abbreviation aggregate := (aggregate Date_valueOf).
Local Abbreviation valid_timestamp := (valid_timestamp Date_valueOf).
Local Abbreviation dated_records := (dated_records Date_valueOf).
Local Abbreviation canonical_per_bucket := (canonical_per_bucket Date_valueOf).
Local Abbreviation not_after := (not_after Date_valueOf).

(** Splits on every string comparison of a property lookup. *)
Ltac by_key :=
  repeat match goal with
    | |- context [String.eqb ?a ?b] => destruct (String.eqb a b) eqn:?; simpl
    end.

(** Two comparisons of one key with different literals cannot both hold. *)
Ltac keys_eq :=
  repeat match goal with
    | H : String.eqb _ _ = true |- _ => apply String.eqb_eq in H
    end;
  congruence.

(** The kind of value found under a key does not depend on the totals. *)
Lemma get_property_bucket t t' key k :
  get_property t key = OwnBucket k -> get_property t' key = OwnBucket k.
Proof. unfold get_property. by_key; simpl; congruence. Qed.

Lemma get_property_inherited t t' key :
  get_property t key = Inherited -> get_property t' key = Inherited.
Proof. unfold get_property. by_key; simpl; congruence. Qed.

Lemma get_property_missing t t' key :
  get_property t key = Missing -> get_property t' key = Missing.
Proof. unfold get_property. by_key; simpl; congruence. Qed.

Lemma get_property_number t t' key n :
  get_property t key = OwnNumber n -> exists n', get_property t' key = OwnNumber n'.
Proof. unfold get_property. by_key; simpl; intros; try discriminate; eauto. Qed.

Lemma get_property_indexable t key :
  indexable key = true <->
  (exists k, get_property t key = OwnBucket k) \/ get_property t key = Inherited.
Proof.
  unfold indexable, known_type, get_property. simpl existsb.
  by_key; simpl;
    try (exfalso; keys_eq; fail);
    (split; intros H;
     [ try discriminate; try (left; eexists; reflexivity); try (right; reflexivity)
     | try reflexivity; destruct H as [[k H]|H]; discriminate ]).
Qed.

(** The callback on a record of a known category, in closed form. *)
Lemma tally_bucket t file k :
  get_property t (doc_type file) = OwnBucket k ->
  tally t file = Normal (tallied k file t).
Proof.
  intros H. unfold tally, tallied, later_of. rewrite H.
  destruct t as [[s1 d1] [s2 d2] [s3 d3] [s4 d4] [s5 d5] u al].
  destruct k; simpl;
    match goal with
    | |- context [negb ?c || ?d] => destruct (negb c || d)
    end; reflexivity.
Qed.

(** The callback on a record whose type names an inherited property. *)
Lemma tally_inherited t file :
  get_property t (doc_type file) = Inherited ->
  tally t file = Normal (set_used (Js.add (used t) (doc_size file)) t).
Proof. intros H. unfold tally. rewrite H. reflexivity. Qed.

Lemma tally_indexable t file :
  indexable (doc_type file) = true -> exists t', tally t file = Normal t'.
Proof.
  intros H. apply (get_property_indexable t) in H. destruct H as [[k H]|H].
  - rewrite (tally_bucket _ _ _ H). eauto.
  - rewrite (tally_inherited _ _ H). eauto.
Qed.

Lemma tally_unindexable t file :
  indexable (doc_type file) = false -> exists r, tally t file = Throw (TypeError r).
Proof.
  intros H. unfold tally.
  destruct (get_property t (doc_type file)) eqn:E; eauto.
  - assert (indexable (doc_type file) = true) by (apply (get_property_indexable t); eauto).
    congruence.
  - assert (indexable (doc_type file) = true) by (apply (get_property_indexable t); eauto).
    congruence.
Qed.

Lemma forEach_throws_iff files : forall t,
  (exists r, forEach files t = Throw (TypeError r))
  <-> (exists file, In file files /\ indexable (doc_type file) = false).
Proof.
  induction files as [|file rest IH]; intros t; simpl.
  - split; [intros [r H]; discriminate | intros [f [Hin _]]; destruct Hin].
  - destruct (indexable (doc_type file)) eqn:E.
    + destruct (tally_indexable t file E) as [t' Ht]. rewrite Ht.
      rewrite IH. split.
      * intros [f [Hin Hf]]. exists f. auto.
      * intros [f [[Heq|Hin] Hf]]; [subst; congruence | exists f; auto].
    + destruct (tally_unindexable t file E) as [r Hr]. rewrite Hr.
      split; [intros _; exists file; auto | intros _; eauto].
Qed.

(** C10 as amended. The aggregator throws a [TypeError] exactly when some
    record's type is neither one of the five categories nor the name of
    a property inherited from [Object.prototype] (so it throws for
    ["used"] and ["all"] as well); a record whose type names an inherited
    property does not stop the aggregation: its size is added to [used]
    and to no bucket. *)
Theorem aggregate_throws_iff_unindexable (files : list Document) :
  ((exists r, aggregate files = Throw (TypeError r))
   <-> (exists file, In file files /\ indexable (doc_type file) = false))
  /\ (forall t file,
        indexable (doc_type file) = true ->
        known_type (doc_type file) = false ->
        tally t file = Normal (set_used (Js.add (used t) (doc_size file)) t)).
Proof.
  split; [apply forEach_throws_iff|].
  intros t file Hi Hk. apply tally_inherited.
  apply (get_property_indexable t) in Hi. destruct Hi as [[k Hb]|Hi]; [|exact Hi].
  exfalso. revert Hb Hk. unfold get_property, known_type. simpl existsb.
  by_key; simpl; intros; discriminate.
Qed.

(** *** Order of the records *)

Lemma forEach_normal_iff files : forall t,
  (exists t', forEach files t = Normal t')
  <-> Forall (fun file => indexable (doc_type file) = true) files.
Proof.
  induction files as [|file rest IH]; intros t; simpl.
  - split; [constructor | eauto].
  - destruct (indexable (doc_type file)) eqn:E.
    + destruct (tally_indexable t file E) as [t' Ht]. rewrite Ht.
      rewrite IH. split; [constructor; assumption | intros H; inversion H; assumption].
    + destruct (tally_unindexable t file E) as [r Hr]. rewrite Hr.
      split; [intros [t' H]; discriminate | intros H; inversion H; congruence].
Qed.

(** Returning does not depend on the order of the records. *)
Lemma returns_permutation files files' t :
  Permutation files files' ->
  (exists t', forEach files t = Normal t') -> exists t', forEach files' t = Normal t'.
Proof.
  intros Hp Hn. apply forEach_normal_iff. apply forEach_normal_iff in Hn.
  revert Hn. apply Permutation_Forall. assumption.
Qed.

Lemma in_bucket_spec t file k :
  in_bucket k file = true <-> get_property t (doc_type file) = OwnBucket k.
Proof.
  unfold in_bucket.
  destruct (get_property totalSpace_literal (doc_type file)) as [k'| | |] eqn:E.
  - rewrite (get_property_bucket _ t _ _ E).
    destruct k, k'; simpl; split; intros H; congruence.
  - destruct (get_property_number _ t _ _ E) as [n' En]. rewrite En.
    split; intros H; discriminate.
  - rewrite (get_property_inherited _ t _ E). split; intros H; discriminate.
  - rewrite (get_property_missing _ t _ E). split; intros H; discriminate.
Qed.

(** **** Additions that are exact *)

Lemma round_exact x : 0 <= x <= 2 ^ 53 -> Js.round x = x.
Proof.
  intros Hx. unfold Js.round.
  destruct (Z.ltb_spec (Z.abs x) (2 ^ 53)) as [Hlt|Hge]; [reflexivity|].
  assert (x = 2 ^ 53) as -> by lia. reflexivity.
Qed.

Lemma add_exact a b : 0 <= a -> 0 <= b -> a + b <= 2 ^ 53 -> Js.add a b = a + b.
Proof. intros Ha Hb Hab. unfold Js.add. apply round_exact. lia. Qed.

Lemma total_size_nonneg files :
  Forall (fun file => 0 <= doc_size file) files -> 0 <= total_size files.
Proof. induction 1; simpl; lia. Qed.

Lemma total_size_permutation l l' :
  Permutation l l' -> total_size l = total_size l'.
Proof. induction 1; simpl; lia. Qed.

Lemma sizes_within_permutation files files' :
  Permutation files files' -> sizes_within files -> sizes_within files'.
Proof.
  intros Hp [Hn Ht]. split.
  - revert Hn. apply Permutation_Forall. assumption.
  - rewrite <- (total_size_permutation _ _ Hp). assumption.
Qed.

(** The totals after a record is tallied into a bucket, when both
    additions are exact. *)
Lemma tallied_exact k file t :
  0 <= doc_size file ->
  0 <= size (bucket k t) <= used t ->
  used t + doc_size file <= 2 ^ 53 ->
  tallied k file t
  = set_bucket k
      {| size := size (bucket k t) + doc_size file;
         latestDate := later_of (latestDate (bucket k t)) (doc_updatedAt file) |}
      (set_used (used t + doc_size file) t).
Proof.
  intros Hn Hs Hu. unfold tallied.
  rewrite (add_exact (size (bucket k t)) (doc_size file)) by lia.
  rewrite (add_exact (used t) (doc_size file)) by lia.
  reflexivity.
Qed.

(** Every bucket's size is the sum over the records of its category,
    and [used] the sum over all records, as long as the sums stay exact. *)
Lemma forEach_sizes files : forall t t',
  forEach files t = Normal t' ->
  Forall (fun file => 0 <= doc_size file) files ->
  (forall k, 0 <= size (bucket k t) <= used t) ->
  used t + total_size files <= 2 ^ 53 ->
  (forall k, size (bucket k t')
             = size (bucket k t) + total_size (filter (in_bucket k) files))
  /\ used t' = used t + total_size files
  /\ all t' = all t.
Proof.
  induction files as [|file rest IH]; intros t t' Hrun Hnn Hinv Hbound; simpl in *.
  - inversion Hrun; subst. repeat split; intros; lia.
  - inversion Hnn as [|? ? Hn Hnn']; subst.
    pose proof (total_size_nonneg rest Hnn') as Hrest.
    pose proof (Hinv K_image) as Hi. pose proof (Hinv K_document) as Hd.
    pose proof (Hinv K_video) as Hv. pose proof (Hinv K_audio) as Ha.
    pose proof (Hinv K_other) as Ho.
    destruct (tally t file) as [t1|e] eqn:Ht; [|discriminate].
    destruct (get_property t (doc_type file)) as [k0| | |] eqn:E;
      try (unfold tally in Ht; rewrite E in Ht; discriminate).
    + rewrite (tally_bucket _ _ _ E) in Ht.
      rewrite tallied_exact in Ht by (try apply Hinv; lia).
      inversion Ht; subst t1; clear Ht.
      destruct (IH _ _ Hrun Hnn') as [Hk [Hu Hal]].
      * intros k. destruct t, k, k0; simpl in *; lia.
      * destruct t, k0; simpl in *; lia.
      * split; [|split].
        -- intros k. rewrite Hk.
           destruct (in_bucket k file) eqn:Ek.
           ++ apply (in_bucket_spec t) in Ek. rewrite E in Ek. inversion Ek; subst k0.
              destruct t, k; simpl; lia.
           ++ assert (k <> k0) as Hne.
              { intros ->. apply (in_bucket_spec t) in E. congruence. }
              destruct t, k, k0; simpl; try lia; congruence.
        -- rewrite Hu. destruct t, k0; simpl; lia.
        -- rewrite Hal. destruct t, k0; reflexivity.
    + rewrite (tally_inherited _ _ E) in Ht.
      rewrite (add_exact (used t) (doc_size file)) in Ht by lia.
      inversion Ht; subst t1; clear Ht.
      destruct (IH _ _ Hrun Hnn') as [Hk [Hu Hal]].
      * intros k. destruct t, k; simpl in *; lia.
      * destruct t; simpl in *; lia.
      * split; [|split].
        -- intros k. rewrite Hk.
           destruct (in_bucket k file) eqn:Ek.
           ++ apply (in_bucket_spec t) in Ek. congruence.
           ++ destruct t, k; simpl; lia.
        -- rewrite Hu. destruct t; simpl; lia.
        -- rewrite Hal. destruct t; reflexivity.
Qed.

(** The sums from the literal of lines 249-257. *)
Lemma aggregate_sizes files t :
  aggregate files = Normal t ->
  sizes_within files ->
  (forall k, size (bucket k t) = total_size (filter (in_bucket k) files))
  /\ used t = total_size files
  /\ all t = 2147483648.
Proof.
  intros Hrun [Hnn Hb].
  destruct (forEach_sizes files totalSpace_literal t Hrun Hnn) as [Hk [Hu Ha]].
  - intros k. destruct k; simpl; lia.
  - simpl. lia.
  - split; [intros k; rewrite Hk; destruct k; reflexivity|].
    split; [rewrite Hu; reflexivity | rewrite Ha; reflexivity].
Qed.

Lemma filter_in_bucket_permutation k l l' :
  Permutation l l' -> Permutation (filter (in_bucket k) l) (filter (in_bucket k) l').
Proof.
  induction 1; simpl;
    repeat match goal with
      | |- context [in_bucket ?k ?x] => destruct (in_bucket k x)
      end;
    eauto using Permutation.
Qed.

Lemma same_sizes_permutation files files' :
  Permutation files files' ->
  sizes_within files ->
  same_sizes (aggregate files) (aggregate files').
Proof.
  intros Hp Hw.
  pose proof (sizes_within_permutation _ _ Hp Hw) as Hw'.
  destruct (aggregate files) as [t1|e1] eqn:E1;
    destruct (aggregate files') as [t2|e2] eqn:E2; simpl; auto.
  - destruct (aggregate_sizes _ _ E1 Hw) as [Hk1 [Hu1 Ha1]].
    destruct (aggregate_sizes _ _ E2 Hw') as [Hk2 [Hu2 Ha2]].
    split; [|split].
    + intros k. rewrite Hk1, Hk2. apply total_size_permutation.
      apply filter_in_bucket_permutation. assumption.
    + rewrite Hu1, Hu2. apply total_size_permutation. assumption.
    + congruence.
  - destruct (returns_permutation files files' totalSpace_literal Hp) as [t' Ht'];
      [exists t1; exact E1|].
    unfold aggregate in E2. congruence.
  - destruct (returns_permutation files' files totalSpace_literal
                (Permutation_sym Hp)) as [t' Ht']; [exists t2; exact E2|].
    unfold aggregate in E1. congruence.
Qed.

(** **** The date kept in a bucket *)

Lemma truthy_nonempty s : s <> "" -> Js.truthy_string s = true.
Proof. destruct s; [congruence | reflexivity]. Qed.

(** The date kept by one comparison. *)
Lemma later_of_cases s c :
  c <> "" ->
  (later_of s c = s \/ later_of s c = c) /\ later_of s c <> ""
  /\ (s = "" -> later_of s c = c).
Proof.
  intros Hc. unfold later_of.
  destruct s as [|ch s']; simpl; [auto|].
  destruct (Date_gt c (String ch s')); split; auto; split; auto; intros; discriminate.
Qed.

(** A date that is set is replaced only by a strictly later one. *)
Lemma later_of_keeps s c :
  s <> "" -> Date_gt c s = false -> later_of s c = s.
Proof.
  intros Hs Hgt. unfold later_of. rewrite (truthy_nonempty s Hs), Hgt. reflexivity.
Qed.

Lemma Date_gt_unparsable c s : Date_valueOf s = None -> Date_gt c s = false.
Proof. intros H. unfold Date_gt. rewrite H. destruct (Date_valueOf c); reflexivity. Qed.

Lemma Date_gt_same_instant c s :
  Date_valueOf c = Date_valueOf s -> Date_gt c s = false.
Proof.
  intros H. unfold Date_gt. rewrite H.
  destruct (Date_valueOf s); [apply Z.ltb_irrefl | reflexivity].
Qed.

Lemma later_of_not_before s c :
  c <> "" -> Date_valueOf c <> None ->
  (s = "" \/ Date_valueOf s <> None) ->
  not_after c (later_of s c) /\ (s <> "" -> not_after s (later_of s c)).
Proof.
  intros Hc Hv Hs. unfold later_of, Date_gt, not_after.
  destruct (Date_valueOf c) as [tc|] eqn:Ec; [|congruence].
  destruct s as [|ch s']; simpl.
  - rewrite Ec. split; [exists tc, tc; repeat split; lia | congruence].
  - destruct Hs as [Hs|Hs]; [discriminate|].
    destruct (Date_valueOf (String ch s')) as [ts|] eqn:Es; [|congruence].
    destruct (Z.ltb_spec ts tc); rewrite ?Ec, ?Es;
      (split; [|intros _]); eexists; eexists; repeat split; try reflexivity; lia.
Qed.

Lemma not_after_trans x y z : not_after x y -> not_after y z -> not_after x z.
Proof.
  intros (a & b & Ha & Hb & Hab) (b' & c & Hb' & Hc & Hbc).
  exists a, c. repeat split; try assumption. rewrite Hb in Hb'. inversion Hb'. lia.
Qed.

Lemma bucket_tallied_same k file t :
  latestDate (bucket k (tallied k file t))
  = later_of (latestDate (bucket k t)) (doc_updatedAt file).
Proof. unfold tallied. destruct t, k; reflexivity. Qed.

Lemma bucket_tallied_other k k0 file t :
  k <> k0 -> bucket k (tallied k0 file t) = bucket k t.
Proof. unfold tallied. destruct t, k, k0; simpl; congruence. Qed.

Lemma bucket_set_used k n t : bucket k (set_used n t) = bucket k t.
Proof. destruct t, k; reflexivity. Qed.

(** The callback on a record with a given kind of key, at any totals. *)
Lemma tally_kind t t' file :
  match get_property t (doc_type file) with
  | OwnBucket k => tally t' file = Normal (tallied k file t')
  | Inherited =>
      tally t' file = Normal (set_used (Js.add (used t') (doc_size file)) t')
  | _ => exists r, tally t' file = Throw (TypeError r)
  end.
Proof.
  destruct (get_property t (doc_type file)) as [k|n| |] eqn:E.
  - apply tally_bucket. apply (get_property_bucket _ _ _ _ E).
  - destruct (get_property_number _ t' _ _ E) as [n' E'].
    unfold tally. rewrite E'. eauto.
  - apply tally_inherited. apply (get_property_inherited _ _ _ E).
  - unfold tally. rewrite (get_property_missing _ t' _ E). eauto.
Qed.

Ltac open_throw H :=
  match type of H with
  | ex _ => let r := fresh "r" in destruct H as [r H]
  | _ => idtac
  end.

(** One step of the loop, seen from bucket [k]: the record is tallied
    into [k] and the date moves to [later_of], or the bucket is as
    before. *)
Lemma tally_step t t1 file k :
  tally t file = Normal t1 ->
  (in_bucket k file = true
   /\ latestDate (bucket k t1)
      = later_of (latestDate (bucket k t)) (doc_updatedAt file))
  \/ (in_bucket k file = false
      /\ latestDate (bucket k t1) = latestDate (bucket k t)).
Proof.
  intros Ht.
  pose proof (tally_kind t t file) as Hkind. rewrite Ht in Hkind.
  destruct (get_property t (doc_type file)) as [k0|n| |] eqn:E;
    try (open_throw Hkind; discriminate Hkind).
  - inversion Hkind; subst t1; clear Hkind.
    destruct (BucketKey_eqb k k0) eqn:Ek.
    + assert (k0 = k) by (destruct k, k0; simpl in Ek; congruence). subst k0.
      left. split; [apply (in_bucket_spec t); exact E | apply bucket_tallied_same].
    + assert (k <> k0) as Hk by (intros ->; destruct k0; discriminate).
      right. split.
      * destruct (in_bucket k file) eqn:Hi; [|reflexivity].
        apply (in_bucket_spec t) in Hi. congruence.
      * rewrite (bucket_tallied_other k k0 file t Hk). reflexivity.
  - inversion Hkind; subst t1; clear Hkind.
    right. split.
    + destruct (in_bucket k file) eqn:Hi; [|reflexivity].
      apply (in_bucket_spec t) in Hi. congruence.
    + rewrite bucket_set_used. reflexivity.
Qed.

(** The running maximum kept in one bucket, from any totals whose date
    for that bucket is unset or valid. *)
Lemma forEach_latestDate files : forall t t' k,
  forEach files t = Normal t' ->
  (forall file, In file files -> in_bucket k file = true -> valid_timestamp file) ->
  (latestDate (bucket k t) = "" \/ Date_valueOf (latestDate (bucket k t)) <> None) ->
  (latestDate (bucket k t') = latestDate (bucket k t)
   \/ exists file, In file files /\ in_bucket k file = true
                   /\ doc_updatedAt file = latestDate (bucket k t'))
  /\ (forall file, In file files -> in_bucket k file = true ->
        not_after (doc_updatedAt file) (latestDate (bucket k t')))
  /\ (latestDate (bucket k t) <> "" ->
        not_after (latestDate (bucket k t)) (latestDate (bucket k t')))
  /\ (latestDate (bucket k t') = "" ->
        latestDate (bucket k t) = ""
        /\ forall file, In file files -> in_bucket k file = false).
Proof.
  induction files as [|file rest IH]; intros t t' k Hrun Hvalid Hs.
  - simpl in Hrun. inversion Hrun; subst t'. split; [auto|].
    split; [intros f []|]. split.
    + intros Hne. destruct Hs as [Hs|Hs]; [congruence|].
      destruct (Date_valueOf (latestDate (bucket k t))) as [a|] eqn:E; [|congruence].
      exists a, a. repeat split; try assumption; lia.
    + intros H. split; [assumption | intros f []].
  - simpl in Hrun.
    destruct (tally t file) as [t1|e] eqn:Ht; [|discriminate].
    assert (forall g, In g rest -> in_bucket k g = true -> valid_timestamp g) as Hvalid'
      by (intros g Hg; apply Hvalid; right; exact Hg).
    destruct (tally_step t t1 file k Ht) as [[Hin Hl]|[Hin Hl]].
    + destruct (Hvalid file (or_introl eq_refl) Hin) as [Hne Hdate].
      pose proof (later_of_cases (latestDate (bucket k t)) _ Hne)
        as [Hcase [Hnonempty Hunset]].
      pose proof (later_of_not_before _ _ Hne Hdate Hs) as [Hfile Hold].
      assert (latestDate (bucket k t1) = ""
              \/ Date_valueOf (latestDate (bucket k t1)) <> None) as Hs1.
      { right. rewrite Hl. destruct Hfile as (a & b & _ & Hb & _). congruence. }
      destruct (IH _ _ k Hrun Hvalid' Hs1) as [I1 [I2 [I3 I4]]].
      rewrite Hl in I1, I3, I4.
      split; [|split; [|split]].
      * destruct I1 as [I1|[g [Hg [Hgk Hgd]]]].
        -- rewrite I1. destruct Hcase as [Hc|Hc]; [left; exact Hc|].
           right. exists file. split; [left; reflexivity|]. split; [exact Hin|].
           congruence.
        -- right. exists g. split; [right; exact Hg|]. split; assumption.
      * intros g [Hg|Hg] Hgk.
        -- subst g. eapply not_after_trans; [exact Hfile|]. apply I3. exact Hnonempty.
        -- apply I2; assumption.
      * intros Hold'. eapply not_after_trans; [apply Hold; exact Hold'|].
        apply I3. exact Hnonempty.
      * intros H'. destruct (I4 H') as [Hempty _]. congruence.
    + assert (latestDate (bucket k t1) = ""
              \/ Date_valueOf (latestDate (bucket k t1)) <> None) as Hs1
        by (rewrite Hl; exact Hs).
      destruct (IH _ _ k Hrun Hvalid' Hs1) as [I1 [I2 [I3 I4]]].
      rewrite Hl in I1, I3, I4.
      split; [|split; [|split]].
      * destruct I1 as [I1|[g [Hg [Hgk Hgd]]]]; [left; exact I1|].
        right. exists g. split; [right; exact Hg|]. split; assumption.
      * intros g [Hg|Hg] Hgk; [subst g; congruence | apply I2; assumption].
      * exact I3.
      * intros H'. destruct (I4 H') as [Hempty Hnone]. split; [exact Hempty|].
        intros g [Hg|Hg]; [subst g; exact Hin | apply Hnone; exact Hg].
Qed.

(** A date that is set and does not parse is never replaced. *)
Lemma forEach_keeps_unparsable files : forall t t' k,
  forEach files t = Normal t' ->
  latestDate (bucket k t) <> "" ->
  Date_valueOf (latestDate (bucket k t)) = None ->
  latestDate (bucket k t') = latestDate (bucket k t).
Proof.
  induction files as [|file rest IH]; intros t t' k Hrun Hne Hnone; simpl in Hrun.
  - inversion Hrun; reflexivity.
  - destruct (tally t file) as [t1|e] eqn:Ht; [|discriminate].
    assert (latestDate (bucket k t1) = latestDate (bucket k t)) as Hsame.
    { destruct (tally_step t t1 file k Ht) as [[_ Hl]|[_ Hl]]; [|exact Hl].
      rewrite Hl. apply later_of_keeps; [exact Hne|].
      apply Date_gt_unparsable. exact Hnone. }
    rewrite <- Hsame. apply (IH t1 t' k Hrun); rewrite Hsame; assumption.
Qed.

(** A record of the instant already kept does not replace the date. *)
Lemma tally_keeps_same_instant t file k :
  in_bucket k file = true ->
  latestDate (bucket k t) <> "" ->
  Date_valueOf (doc_updatedAt file) = Date_valueOf (latestDate (bucket k t)) ->
  exists t', tally t file = Normal t'
             /\ latestDate (bucket k t') = latestDate (bucket k t).
Proof.
  intros Hin Hne Hsame.
  apply (in_bucket_spec t) in Hin.
  exists (tallied k file t). split; [apply tally_bucket; exact Hin|].
  rewrite bucket_tallied_same. apply later_of_keeps; [exact Hne|].
  apply Date_gt_same_instant. exact Hsame.
Qed.

(** With dated, canonically spelled records the date kept in a bucket does
    not depend on the order. *)
Lemma latestDate_permutation files files' t t' k :
  Permutation files files' ->
  aggregate files = Normal t ->
  aggregate files' = Normal t' ->
  dated_records files ->
  canonical_per_bucket files ->
  latestDate (bucket k t) = latestDate (bucket k t').
Proof.
  intros Hp Hrun Hrun' Hdated Hcanon.
  assert (latestDate (bucket k totalSpace_literal) = "") as Hlit
    by (destruct k; reflexivity).
  assert (forall f, In f files' -> In f files) as Hback
    by (intros f; apply Permutation_in; apply Permutation_sym; exact Hp).
  destruct (forEach_latestDate files totalSpace_literal t k Hrun)
    as [I1 [I2 [_ I4]]];
    [intros f Hf Hk; exact (Hdated f k Hf Hk) | left; exact Hlit |].
  destruct (forEach_latestDate files' totalSpace_literal t' k Hrun')
    as [J1 [J2 [_ J4]]];
    [intros f Hf Hk; exact (Hdated f k (Hback f Hf) Hk) | left; exact Hlit |].
  rewrite Hlit in I1, J1.
  destruct I1 as [I1|[f [Hf [Hfk Hfd]]]]; destruct J1 as [J1|[g [Hg [Hgk Hgd]]]].
  - congruence.
  - destruct (I4 I1) as [_ Hnone]. rewrite (Hnone g (Hback g Hg)) in Hgk. discriminate.
  - destruct (J4 J1) as [_ Hnone].
    rewrite (Hnone f (Permutation_in _ Hp Hf)) in Hfk. discriminate.
  - rewrite <- Hfd, <- Hgd.
    apply (Hcanon k f g Hf (Hback g Hg) Hfk Hgk).
    destruct (I2 g (Hback g Hg) Hgk) as (a & b & Ha & Hb & Hab).
    destruct (J2 f (Permutation_in _ Hp Hf) Hfk) as (b' & a' & Hb' & Ha' & Hba).
    rewrite <- Hfd in Hb. rewrite <- Hgd in Ha'.
    rewrite Ha in Ha'. rewrite Hb in Hb'. inversion Ha'; inversion Hb'; subst.
    rewrite Hb, Ha. f_equal. lia.
Qed.

Lemma totals_equal t t' :
  (forall k, size (bucket k t) = size (bucket k t')) ->
  (forall k, latestDate (bucket k t) = latestDate (bucket k t')) ->
  used t = used t' -> all t = all t' -> t = t'.
Proof.
  intros Hs Hl Hu Ha.
  pose proof (Hs K_image); pose proof (Hs K_document); pose proof (Hs K_video);
    pose proof (Hs K_audio); pose proof (Hs K_other).
  pose proof (Hl K_image); pose proof (Hl K_document); pose proof (Hl K_video);
    pose proof (Hl K_audio); pose proof (Hl K_other).
  destruct t as [[s1 d1] [s2 d2] [s3 d3] [s4 d4] [s5 d5] u al].
  destruct t' as [[s1' d1'] [s2' d2'] [s3' d3'] [s4' d4'] [s5' d5'] u' al'].
  simpl in *. congruence.
Qed.

Lemma agree_permutation files files' :
  Permutation files files' ->
  sizes_within files ->
  dated_records files ->
  canonical_per_bucket files ->
  agree (aggregate files) (aggregate files').
Proof.
  intros Hp Hw Hd Hc.
  pose proof (same_sizes_permutation files files' Hp Hw) as Hsizes.
  destruct (aggregate files) as [t|e] eqn:E; destruct (aggregate files') as [t'|e'] eqn:E';
    simpl in *; try exact Hsizes.
  destruct Hsizes as [Hs [Hu Ha]].
  apply totals_equal; try assumption.
  intros k. apply (latestDate_permutation files files' t t' k Hp E E' Hd Hc).
Qed.


(** *** Further properties of the aggregator *)

(** X15. When the aggregator returns and the sizes are non-negative with a
    total of at most 2^53, every bucket's size is the sum of the sizes of
    the records of that category, [used] is the sum of the sizes of all
    records, and [all] is 2147483648. *)
Theorem aggregate_sizes_are_sums (files : list Document) (t : TotalSpace) :
  aggregate files = Normal t ->
  sizes_within files ->
  (forall k, size (bucket k t) = total_size (filter (in_bucket k) files))
  /\ used t = total_size files
  /\ all t = 2147483648.
Proof. apply aggregate_sizes. Qed.

Lemma known_type_indexable key : known_type key = true -> indexable key = true.
Proof. unfold indexable. intros ->. reflexivity. Qed.

(** A record of a known category is tallied into exactly one bucket. *)
Lemma known_type_one_bucket file :
  known_type (doc_type file) = true ->
  total_size (filter (in_bucket K_image) [file])
  + total_size (filter (in_bucket K_document) [file])
  + total_size (filter (in_bucket K_video) [file])
  + total_size (filter (in_bucket K_audio) [file])
  + total_size (filter (in_bucket K_other) [file])
  = doc_size file.
Proof.
  unfold in_bucket, get_property, known_type. simpl existsb.
  by_key; simpl; intros H; try discriminate H; try lia; exfalso; keys_eq.
Qed.

Lemma total_size_filter_cons k file files :
  total_size (filter (in_bucket k) (file :: files))
  = total_size (filter (in_bucket k) [file]) + total_size (filter (in_bucket k) files).
Proof. simpl. destruct (in_bucket k file); simpl; lia. Qed.

Lemma known_types_partition files :
  Forall (fun file => known_type (doc_type file) = true) files ->
  total_size (filter (in_bucket K_image) files)
  + total_size (filter (in_bucket K_document) files)
  + total_size (filter (in_bucket K_video) files)
  + total_size (filter (in_bucket K_audio) files)
  + total_size (filter (in_bucket K_other) files)
  = total_size files.
Proof.
  induction 1 as [|file files Hk Hall IH]; [reflexivity|].
  rewrite !(total_size_filter_cons _ file files).
  pose proof (known_type_one_bucket file Hk) as H1.
  simpl total_size at 11. lia.
Qed.

(** X16. When every record's type is one of the five categories, no size
    is negative and the sizes total at most 2^53, the aggregator returns
    and [used] is the sum of the five bucket sizes. *)
Theorem aggregate_used_is_sum_of_buckets (files : list Document) :
  Forall (fun file => known_type (doc_type file) = true) files ->
  sizes_within files ->
  exists t,
    aggregate files = Normal t
    /\ used t = size (image t) + size (document t) + size (video t)
                + size (audio t) + size (other t).
Proof.
  intros Hk Hw.
  assert (exists t, aggregate files = Normal t) as [t Ht].
  { apply forEach_normal_iff. revert Hk. apply Forall_impl.
    intros file. apply known_type_indexable. }
  exists t. split; [exact Ht|].
  destruct (aggregate_sizes _ _ Ht Hw) as [Hs [Hu _]].
  rewrite Hu.
  rewrite <- (known_types_partition files Hk).
  pose proof (Hs K_image) as Hi. pose proof (Hs K_document) as Hd.
  pose proof (Hs K_video) as Hv. pose proof (Hs K_audio) as Ha.
  pose proof (Hs K_other) as Ho. simpl in Hi, Hd, Hv, Ha, Ho. lia.
Qed.

(** X17. With valid timestamps, a bucket's [latestDate] is the [updatedAt]
    of one of the records of its category whose instant no record of that
    category exceeds; a bucket without records keeps the unset [""]. *)
Theorem aggregate_latestDate_is_latest
    (files : list Document) (t : TotalSpace) (k : BucketKey) :
  aggregate files = Normal t ->
  Forall valid_timestamp files ->
  ((forall file, In file files -> in_bucket k file = false) ->
   latestDate (bucket k t) = "")
  /\ (forall record, In record files -> in_bucket k record = true ->
        exists file,
          In file files /\ in_bucket k file = true
          /\ latestDate (bucket k t) = doc_updatedAt file
          /\ forall other, In other files -> in_bucket k other = true ->
               not_after (doc_updatedAt other) (doc_updatedAt file)).
Proof.
  intros Hrun Hvalid.
  assert (latestDate (bucket k totalSpace_literal) = "") as Hlit
    by (destruct k; reflexivity).
  destruct (forEach_latestDate files totalSpace_literal t k Hrun)
    as [I1 [I2 [_ I4]]];
    [ intros f Hf _; exact (proj1 (Forall_forall _ _) Hvalid f Hf)
    | left; exact Hlit |].
  rewrite Hlit in I1.
  split.
  - intros Hnone. destruct I1 as [I1|[g [Hg [Hgk _]]]]; [exact I1|].
    rewrite (Hnone g Hg) in Hgk. discriminate.
  - intros record Hr Hrk.
    destruct I1 as [I1|[g [Hg [Hgk Hgd]]]].
    + destruct (I4 I1) as [_ Hnone]. rewrite (Hnone record Hr) in Hrk. discriminate.
    + exists g. split; [exact Hg|]. split; [exact Hgk|]. split; [congruence|].
      intros o Ho Hok. rewrite Hgd. apply I2; assumption.
Qed.

End AggregatorProperties.

(** ** The theorems at work on the scripted backend *)

(** Upload against a backend that stores the blob and rejects the document. *)
Lemma uploadFile_compensation_witness :
  let props := {| up_file := sample_file; up_ownerId := "u1";
                  up_accountId := "acc1"; up_path := "/" |} in
  let failing :=
    scripted (with_createDocument (Throw (BackendFailure "document rejected")) happy) in
  let r := run (uploadFile nat failing config sample_getFileType
                  sample_constructFileUrl props) 0%nat in
  log_of r
  = [ (E_createAdminClient, None);
      (E_storage_createFile "bucket" "unique()"
         (InputFile_fromBuffer sample_file "a.png"), None);
      (E_databases_createDocument "db" "files" "unique()"
         (fileDocument sample_getFileType sample_constructFileUrl sample_blob "u1" "acc1"),
       Some (BackendFailure "document rejected"));
      (E_storage_deleteFile "bucket" "blob1", None) ]
  /\ result_of r = Throw (BackendFailure "document rejected").
Proof.
  exact (uploadFile_compensation nat
           (scripted (with_createDocument (Throw (BackendFailure "document rejected")) happy))
           config sample_getFileType sample_constructFileUrl
           {| up_file := sample_file; up_ownerId := "u1";
              up_accountId := "acc1"; up_path := "/" |}
           0%nat 1%nat 2%nat 3%nat 4%nat 5%nat "unique()" "unique()" sample_blob
           (BackendFailure "document rejected")
           eq_refl eq_refl eq_refl eq_refl eq_refl).
Defined.

(** When the compensating deletion fails as well, its error is the one the
    caller sees. *)
Example uploadFile_compensation_fails :
  let failing :=
    scripted (with_deleteFile (Throw (BackendFailure "bucket offline"))
                (with_createDocument (Throw (BackendFailure "document rejected")) happy)) in
  result_of (run (uploadFile nat failing config sample_getFileType sample_constructFileUrl
                    {| up_file := sample_file; up_ownerId := "u1";
                       up_accountId := "acc1"; up_path := "/" |}) 0%nat)
  = Throw (BackendFailure "bucket offline").
Proof. reflexivity. Qed.

(** C2, the claim as stated fails.  First run: the document deletion
    returns (a falsy value) and the blob deletion is not invoked.  Second
    run: the document deletion returns a truthy value, the blob deletion is
    invoked and throws, and the action throws instead of returning the
    success marker. *)
Lemma deleteFile_falsy_reply_keeps_blob :
  let props := {| df_fileId := "f1"; df_bucketFileId := "blob1"; df_path := "/" |} in
  let quiet := scripted (with_deleteDocument (Normal (Js.Str "")) happy) in
  let r := run (deleteFile nat quiet config props) 0%nat in
  let offline := scripted (with_deleteFile (Throw (BackendFailure "bucket offline")) happy) in
  let r' := run (deleteFile nat offline config props) 0%nat in
  (In (E_databases_deleteDocument "db" "files" "f1", None) (log_of r)
   /\ ~ In (E_storage_deleteFile "bucket" "blob1") (events (log_of r))
   /\ result_of r = Normal {| status := "success" |})
  /\ (In (E_databases_deleteDocument "db" "files" "f1", None) (log_of r')
      /\ result_of r' = Throw (BackendFailure "bucket offline")).
Proof.
  simpl. split.
  - split; [auto|]. split; [|reflexivity].
    intros [H|[H|[H|[]]]]; discriminate.
  - split; [auto|reflexivity].
Qed.

(** Delete against a backend on which every call succeeds. *)
Lemma deleteFile_blob_iff_truthy_witness :
  let r := run (deleteFile nat (scripted happy) config
                  {| df_fileId := "f1"; df_bucketFileId := "blob1"; df_path := "/" |})
             0%nat in
  In (E_storage_deleteFile "bucket" "blob1") (events (log_of r))
  /\ result_of r = Normal {| status := "success" |}.
Proof.
  destruct (deleteFile_blob_iff_truthy nat (scripted happy) config
              {| df_fileId := "f1"; df_bucketFileId := "blob1"; df_path := "/" |}
              0%nat 1%nat eq_refl) as [Hblob [_ [_ Hok]]].
  split.
  - apply Hblob. exists (Js.Object []). split; reflexivity.
  - apply Hok. reflexivity.
Defined.

(** C4, the claim as stated fails: the storage failure reaches the caller
    as it was thrown, without the message given to [handleError]. *)
Lemma failure_is_not_wrapped :
  let cause := BackendFailure "storage unavailable" in
  let r := run (uploadFile nat (scripted (with_createFile (Throw cause) happy)) config
                  sample_getFileType sample_constructFileUrl
                  {| up_file := sample_file; up_ownerId := "u1";
                     up_accountId := "acc1"; up_path := "/" |}) 0%nat in
  result_of r = Throw cause
  /\ ~ wrapped "Failed to upload file" cause cause
  /\ Js.includes "Failed to upload file" (exn_message cause) = false.
Proof.
  simpl. split; [reflexivity|]. split; [|reflexivity].
  intros [Hne _]. apply Hne. reflexivity.
Qed.

(** Delete against a backend whose document deletion throws. *)
Lemma failures_surface_unchanged_witness :
  let cause := BackendFailure "database unavailable" in
  let r := run (perform nat (scripted (with_deleteDocument (Throw cause) happy)) config
                  sample_getFileType sample_constructFileUrl IsoDate.valueOf
                  (A_deleteFile {| df_fileId := "f1"; df_bucketFileId := "blob1";
                                   df_path := "/" |})) 0%nat in
  result_of r = Throw cause.
Proof.
  apply (failures_surface_unchanged nat
           (scripted (with_deleteDocument (Throw (BackendFailure "database unavailable")) happy))
           config sample_getFileType sample_constructFileUrl IsoDate.valueOf
           (A_deleteFile {| df_fileId := "f1"; df_bucketFileId := "blob1"; df_path := "/" |})
           0%nat).
  reflexivity.
Defined.

(** The sorts [size-asc], [size-xyz] and the default of [getFiles]. *)
Lemma createQueries_sort_direction_witness :
  createQueries alice [] "" "size-asc" None = [visibility alice; Query_orderAsc "size"]
  /\ createQueries alice [] "" "size-xyz" None = [visibility alice; Query_orderDesc "size"]
  /\ exists o,
       log_of (run (getFiles nat (scripted happy) config
                      {| gf_types := None; gf_searchText := None; gf_sort := None;
                         gf_limit := None |}) 0%nat)
       = [ (E_createAdminClient, None);
           (E_getCurrentUser, None);
           (E_databases_listDocuments "db" "files"
              [visibility alice; Query_orderDesc "$createdAt"], o) ].
Proof.
  split; [|split].
  - exact (proj1 (createQueries_sort_direction nat (scripted happy) config
                    alice [] "" None "size" "asc" eq_refl eq_refl)).
  - exact (proj1 (createQueries_sort_direction nat (scripted happy) config
                    alice [] "" None "size" "xyz" eq_refl eq_refl)).
  - exact (proj2 (proj2 (proj2 (createQueries_sort_direction nat (scripted happy) config
                                  alice [] "" None "size" "asc" eq_refl eq_refl)))
             {| gf_types := None; gf_searchText := None; gf_sort := None; gf_limit := None |}
             0%nat 1%nat 2%nat alice eq_refl eq_refl eq_refl).
Defined.

(** List and GetTotalSpaceUsed when the session provider knows no user. *)
Lemma no_user_no_list_query_witness :
  let anonymous := scripted (with_getCurrentUser (Normal None) happy) in
  let props := {| gf_types := None; gf_searchText := None; gf_sort := None;
                  gf_limit := None |} in
  run (getFiles nat anonymous config props) 0%nat
  = (2%nat, [(E_createAdminClient, None); (E_getCurrentUser, None)],
     Throw (Error "User not found"))
  /\ run (getTotalSpaceUsed nat anonymous config IsoDate.valueOf) 0%nat
     = (2%nat, [(E_createSessionClient, None); (E_getCurrentUser, None)],
        Throw (Error "User is not authenticated.")).
Proof.
  destruct (no_user_no_list_query nat
              (scripted (with_getCurrentUser (Normal None) happy)) config IsoDate.valueOf
              {| gf_types := None; gf_searchText := None; gf_sort := None; gf_limit := None |}
              0%nat 1%nat 2%nat) as [Hlist Htotal].
  split.
  - exact (proj1 (Hlist eq_refl eq_refl)).
  - exact (proj1 (Htotal eq_refl eq_refl)).
Defined.

(** Rename to [report] with extension [pdf]. *)
Lemma renameFile_updates_name_only_witness :
  In (E_databases_updateDocument "db" "files" "f1" [("name", PV_string "report.pdf")])
     (events (log_of (run (renameFile nat (scripted happy) config
                             {| rn_fileId := "f1"; rn_name := "report";
                                rn_extension := "pdf"; rn_path := "/" |}) 0%nat))).
Proof.
  exact (proj1 (renameFile_updates_name_only nat (scripted happy) config
                  {| rn_fileId := "f1"; rn_name := "report";
                     rn_extension := "pdf"; rn_path := "/" |}
                  0%nat 1%nat eq_refl)).
Defined.

(** GetTotalSpaceUsed for a user without records. *)
Lemma aggregate_empty_witness :
  result_of (run (getTotalSpaceUsed nat (scripted happy) config IsoDate.valueOf) 0%nat)
  = Normal {| image := {| size := 0; latestDate := "" |};
              document := {| size := 0; latestDate := "" |};
              video := {| size := 0; latestDate := "" |};
              audio := {| size := 0; latestDate := "" |};
              other := {| size := 0; latestDate := "" |};
              used := 0;
              all := 2147483648 |}.
Proof.
  exact (proj2 (aggregate_empty nat (scripted happy) config IsoDate.valueOf
                  0%nat 1%nat 2%nat 3%nat alice 0)
           eq_refl eq_refl eq_refl).
Defined.

(** The aggregator on one image record. *)
Example aggregate_single :
  aggregate IsoDate.valueOf [photo_utc]
  = Normal (set_used 2000
              (set_bucket K_image
                 {| size := 2000; latestDate := "2024-01-01T00:00:00.000+00:00" |}
                 totalSpace_literal)).
Proof. reflexivity. Qed.



(** C10, the claim as stated fails: a record whose type is ["constructor"]
    is none of the five categories, yet GetTotalSpaceUsed returns; the
    record is counted in [used] only. *)
Lemma getTotalSpaceUsed_inherited_key_returns :
  let listing := Normal {| total := 1; documents := [odd_constructor] |} in
  known_type (doc_type odd_constructor) = false
  /\ result_of (run (getTotalSpaceUsed nat (scripted (with_listDocuments listing happy))
                       config IsoDate.valueOf) 0%nat)
     = Normal {| image := {| size := 0; latestDate := "" |};
                 document := {| size := 0; latestDate := "" |};
                 video := {| size := 0; latestDate := "" |};
                 audio := {| size := 0; latestDate := "" |};
                 other := {| size := 0; latestDate := "" |};
                 used := 300;
                 all := 2147483648 |}.
Proof. split; reflexivity. Qed.

(** A record of type [pdf] stops the aggregation; one of type
    [constructor] is tallied into [used] only. *)
Lemma aggregate_throws_iff_unindexable_witness :
  (exists r, aggregate IsoDate.valueOf [photo_z; odd_pdf] = Throw (TypeError r))
  /\ tally IsoDate.valueOf totalSpace_literal odd_constructor
     = Normal (set_used 300 totalSpace_literal).
Proof.
  destruct (aggregate_throws_iff_unindexable IsoDate.valueOf [photo_z; odd_pdf])
    as [Hiff Hin].
  split.
  - apply Hiff. exists odd_pdf. split; [simpl; auto | reflexivity].
  - apply (Hin totalSpace_literal odd_constructor); reflexivity.
Defined.

(** Types that are own number properties of the totals make the callback
    throw as well. *)
Example aggregate_used_key_throws :
  aggregate IsoDate.valueOf [sample_record "f8" "used" "2024-01-01T00:00:00.000+00:00" 1]
  = Throw (TypeError CreatePropertyOnPrimitive).
Proof. reflexivity. Qed.

Example aggregate_unknown_key_throws :
  aggregate IsoDate.valueOf [odd_pdf] = Throw (TypeError ReadPropertyOfUndefined).
Proof. reflexivity. Qed.


(** ** The further properties at work *)

(** A limit of 5 is passed on; a limit of 0 or [NaN] is not. *)
Lemma createQueries_limit_iff_witness :
  In (Query_limit (Js.Int 5)) (createQueries alice [] "" "" (Some (Js.Int 5)))
  /\ ~ In (Query_limit (Js.Int 0)) (createQueries alice [] "" "" (Some (Js.Int 0)))
  /\ ~ In (Query_limit Js.NaN) (createQueries alice [] "" "" (Some Js.NaN)).
Proof.
  split; [|split].
  - apply (proj2 (createQueries_limit_iff alice [] "" "" (Some (Js.Int 5)) (Js.Int 5))).
    split; [reflexivity|]. split; discriminate.
  - intros H.
    destruct (proj1 (createQueries_limit_iff alice [] "" "" (Some (Js.Int 0)) (Js.Int 0)) H)
      as [_ [Hn _]].
    apply Hn. reflexivity.
  - intros H.
    destruct (proj1 (createQueries_limit_iff alice [] "" "" (Some Js.NaN) Js.NaN) H)
      as [_ [_ Hn]].
    apply Hn. reflexivity.
Defined.

(** A listing restricted to images and videos. *)
Lemma createQueries_type_filter_iff_witness :
  In (Query_equal "type" (QV_array ["image"; "video"]))
     (createQueries alice ["image"; "video"] "" "" None).
Proof.
  apply (proj2 (createQueries_type_filter_iff alice ["image"; "video"] "" "" None
                  (QV_array ["image"; "video"]))).
  split; [discriminate | reflexivity].
Defined.

(** A search for [cat]. *)
Lemma createQueries_search_iff_witness :
  In (Query_contains "name" (QV_string "cat")) (createQueries alice [] "cat" "" None).
Proof.
  apply (proj2 (createQueries_search_iff alice [] "cat" "" None (QV_string "cat"))).
  split; [discriminate | reflexivity].
Defined.

(** The sort [size], without a direction. *)
Lemma createQueries_sort_without_direction_witness :
  createQueries alice [] "" "size" None = [visibility alice; Query_orderDesc "size"].
Proof.
  apply (createQueries_sort_without_direction alice [] "" "size" None);
    [discriminate | reflexivity].
Defined.

(** The sort [size-asc-x] orders as [size-asc] does. *)
Lemma createQueries_sort_extra_segments_witness :
  createQueries alice [] "" "size-asc-x" None = [visibility alice; Query_orderAsc "size"].
Proof.
  exact (createQueries_sort_extra_segments alice [] "" None "size" "asc" "x"
           eq_refl eq_refl).
Defined.

(** List with every argument left out, on a backend where every call
    succeeds. *)
Lemma getFiles_returns_listing_witness :
  run (getFiles nat (scripted happy) config
         {| gf_types := None; gf_searchText := None; gf_sort := None; gf_limit := None |})
      0%nat
  = (3%nat,
     [ (E_createAdminClient, None);
       (E_getCurrentUser, None);
       (E_databases_listDocuments "db" "files"
          [visibility alice; Query_orderDesc "$createdAt"], None) ],
     Normal {| total := 0; documents := [] |}).
Proof.
  exact (getFiles_returns_listing nat (scripted happy) config
           {| gf_types := None; gf_searchText := None; gf_sort := None; gf_limit := None |}
           0%nat 1%nat 2%nat 3%nat alice {| total := 0; documents := [] |}
           eq_refl eq_refl eq_refl).
Defined.

(** List with the sort given as the empty string. *)
Lemma getFiles_empty_sort_unordered_witness :
  forallb (fun q => negb (is_order q)) [visibility alice] = true.
Proof.
  apply (getFiles_empty_sort_unordered nat (scripted happy) config
           {| gf_types := None; gf_searchText := None; gf_sort := Some "";
              gf_limit := None |}
           0%nat "db" "files" [visibility alice]).
  - reflexivity.
  - simpl. auto.
Defined.

(** Upload on a backend where every call succeeds. *)
Lemma uploadFile_success_witness :
  let props := {| up_file := sample_file; up_ownerId := "u1";
                  up_accountId := "acc1"; up_path := "/" |} in
  run (uploadFile nat (scripted happy) config sample_getFileType
         sample_constructFileUrl props) 0%nat
  = (6%nat,
     [ (E_createAdminClient, None);
       (E_storage_createFile "bucket" "unique()"
          (InputFile_fromBuffer sample_file "a.png"), None);
       (E_databases_createDocument "db" "files" "unique()"
          (fileDocument sample_getFileType sample_constructFileUrl sample_blob
             "u1" "acc1"), None);
       (E_revalidatePath "/", None) ],
     Normal photo_z).
Proof.
  exact (proj1 (uploadFile_success nat (scripted happy) config sample_getFileType
                  sample_constructFileUrl
                  {| up_file := sample_file; up_ownerId := "u1";
                     up_accountId := "acc1"; up_path := "/" |}
                  0%nat 1%nat 2%nat 3%nat 4%nat 5%nat 6%nat "unique()" "unique()"
                  sample_blob photo_z
                  eq_refl eq_refl eq_refl eq_refl eq_refl eq_refl)).
Defined.

(** Upload when the database rejects the document. *)
Lemma uploadFile_deletes_iff_document_failed_witness :
  let props := {| up_file := sample_file; up_ownerId := "u1";
                  up_accountId := "acc1"; up_path := "/" |} in
  let rejecting :=
    scripted (with_createDocument (Throw (BackendFailure "document rejected")) happy) in
  existsb is_storage_deleteFile
    (events (log_of (run (uploadFile nat rejecting config sample_getFileType
                            sample_constructFileUrl props) 0%nat))) = true.
Proof.
  apply (proj2 (uploadFile_deletes_iff_document_failed nat
                  (scripted (with_createDocument
                               (Throw (BackendFailure "document rejected")) happy))
                  config sample_getFileType sample_constructFileUrl
                  {| up_file := sample_file; up_ownerId := "u1";
                     up_accountId := "acc1"; up_path := "/" |} 0%nat)).
  exists "db", "files", "unique()",
    (fileDocument sample_getFileType sample_constructFileUrl sample_blob "u1" "acc1"),
    (BackendFailure "document rejected").
  simpl. auto.
Defined.

(** Rename on a backend where every call succeeds. *)
Lemma mutating_returns_iff_no_failure_witness :
  exists reply,
    result_of (run (perform nat (scripted happy) config sample_getFileType
                      sample_constructFileUrl IsoDate.valueOf
                      (A_renameFile {| rn_fileId := "f1"; rn_name := "report";
                                       rn_extension := "pdf"; rn_path := "/" |}))
                 0%nat)
    = Normal reply.
Proof.
  apply (proj2 (mutating_returns_iff_no_failure nat (scripted happy) config
                  sample_getFileType sample_constructFileUrl IsoDate.valueOf
                  (A_renameFile {| rn_fileId := "f1"; rn_name := "report";
                                   rn_extension := "pdf"; rn_path := "/" |})
                  0%nat eq_refl)).
  reflexivity.
Defined.

(** UpdateSharing with two emails. *)
Lemma updateFileUsers_replaces_users_witness :
  In (E_databases_updateDocument "db" "files" "f1"
        [("users", PV_strings ["bob@example.com"; "carol@example.com"])])
     (events (log_of (run (updateFileUsers nat (scripted happy) config
                             {| uu_fileId := "f1";
                                uu_emails := ["bob@example.com"; "carol@example.com"];
                                uu_path := "/" |}) 0%nat))).
Proof.
  exact (proj1 (updateFileUsers_replaces_users nat (scripted happy) config
                  {| uu_fileId := "f1";
                     uu_emails := ["bob@example.com"; "carol@example.com"];
                     uu_path := "/" |}
                  0%nat 1%nat eq_refl)).
Defined.

(** Delete on a backend where every call succeeds refreshes its path. *)
Lemma revalidatePath_discipline_witness :
  let a := A_deleteFile {| df_fileId := "f1"; df_bucketFileId := "blob1";
                           df_path := "/documents" |} in
  let log := log_of (run (perform nat (scripted happy) config sample_getFileType
                            sample_constructFileUrl IsoDate.valueOf a) 0%nat) in
  path_of a = Some "/documents"
  /\ length (filter is_revalidatePath (events log)) = 1%nat
  /\ (first_failed_event log = None
      \/ first_failed_event log = Some (E_revalidatePath "/documents")).
Proof.
  apply (revalidatePath_discipline nat (scripted happy) config sample_getFileType
           sample_constructFileUrl IsoDate.valueOf
           (A_deleteFile {| df_fileId := "f1"; df_bucketFileId := "blob1";
                            df_path := "/documents" |})
           0%nat "/documents").
  simpl. auto 6.
Defined.

(** GetTotalSpaceUsed on a backend where every call succeeds. *)
Lemma getTotalSpaceUsed_owner_only_witness :
  filter is_listDocuments
    (events (log_of (run (getTotalSpaceUsed nat (scripted happy) config IsoDate.valueOf)
                       0%nat)))
  = [E_databases_listDocuments "db" "files" [Query_equal "owner" (QV_array ["u1"])]].
Proof.
  exact (getTotalSpaceUsed_owner_only nat (scripted happy) config IsoDate.valueOf
           0%nat 1%nat 2%nat alice eq_refl eq_refl).
Defined.

(** Two images and a video. *)
Lemma aggregate_sizes_are_sums_witness :
  let t := set_used 9500
             (set_bucket K_video
                {| size := 7000; latestDate := "2024-02-01T00:00:00.000+00:00" |}
                (set_bucket K_image
                   {| size := 2500; latestDate := "2024-06-01T12:00:00.000+00:00" |}
                   totalSpace_literal)) in
  (forall k, size (bucket k t)
             = total_size (filter (in_bucket k) [photo_utc; clip; photo_later]))
  /\ used t = total_size [photo_utc; clip; photo_later]
  /\ all t = 2147483648.
Proof.
  apply (aggregate_sizes_are_sums IsoDate.valueOf [photo_utc; clip; photo_later]).
  - reflexivity.
  - split; [repeat constructor; simpl; lia | simpl; lia].
Defined.

Lemma aggregate_used_is_sum_of_buckets_witness :
  exists t,
    aggregate IsoDate.valueOf [photo_utc; clip; photo_later] = Normal t
    /\ used t = size (image t) + size (document t) + size (video t)
                + size (audio t) + size (other t).
Proof.
  apply (aggregate_used_is_sum_of_buckets IsoDate.valueOf [photo_utc; clip; photo_later]).
  - repeat constructor.
  - split; [repeat constructor; simpl; lia | simpl; lia].
Defined.

(** The image bucket of two images and a video holds the later image's
    timestamp; the audio bucket stays unset. *)
Lemma aggregate_latestDate_is_latest_witness :
  let t := set_used 9500
             (set_bucket K_video
                {| size := 7000; latestDate := "2024-02-01T00:00:00.000+00:00" |}
                (set_bucket K_image
                   {| size := 2500; latestDate := "2024-06-01T12:00:00.000+00:00" |}
                   totalSpace_literal)) in
  latestDate (bucket K_audio t) = ""
  /\ exists file,
       In file [photo_utc; clip; photo_later] /\ in_bucket K_image file = true
       /\ latestDate (bucket K_image t) = doc_updatedAt file
       /\ forall other, In other [photo_utc; clip; photo_later] ->
            in_bucket K_image other = true ->
            not_after IsoDate.valueOf (doc_updatedAt other) (doc_updatedAt file).
Proof.
  assert (Forall (valid_timestamp IsoDate.valueOf) [photo_utc; clip; photo_later]) as Hv.
  { repeat constructor; simpl; discriminate. }
  split.
  - apply (proj1 (aggregate_latestDate_is_latest IsoDate.valueOf
                    [photo_utc; clip; photo_later] _ K_audio eq_refl Hv)).
    intros file [<-|[<-|[<-|[]]]]; reflexivity.
  - apply (proj2 (aggregate_latestDate_is_latest IsoDate.valueOf
                    [photo_utc; clip; photo_later] _ K_image eq_refl Hv) photo_utc).
    + simpl. auto.
    + reflexivity.
Defined.

(** GetTotalSpaceUsed over a listing that holds a record of type [pdf]. *)
Lemma getTotalSpaceUsed_composes_witness :
  let listing := {| total := 2; documents := [photo_z; odd_pdf] |} in
  run (getTotalSpaceUsed nat (scripted (with_listDocuments (Normal listing) happy))
         config IsoDate.valueOf) 0%nat
  = (3%nat,
     [ (E_createSessionClient, None);
       (E_getCurrentUser, None);
       (E_databases_listDocuments "db" "files"
          [Query_equal "owner" (QV_array ["u1"])], None) ],
     Throw (TypeError ReadPropertyOfUndefined)).
Proof.
  exact (getTotalSpaceUsed_composes nat
           (scripted (with_listDocuments
                        (Normal {| total := 2; documents := [photo_z; odd_pdf] |}) happy))
           config IsoDate.valueOf 0%nat 1%nat 2%nat 3%nat alice
           {| total := 2; documents := [photo_z; odd_pdf] |}
           eq_refl eq_refl eq_refl).
Defined.
